(** * irclog2html: the log search engine, its result presenter and the
      two WSGI request handlers

    A shallow embedding of [irclogsearch.py] and [irclogserver.py].

    Conventions of the model.
    - A Python [str] is a [string].  The strings of the WSGI environment
      hold code points up to U+00FF, one [ascii] each; the text of the logs
      and the query may hold any code point and are written in UTF-8, which
      concatenation, comparison and the search for a substring respect.
      [str.lower] is not computed here: it is a parameter, [Text.lower].
      A Python [bytes] is a [string] as well, one [ascii] per octet.
    - The collaborators imported from [irclog2html.py] and [logs2html.py]
      (log parser, renderer, file finder) and the operating system are
      interfaces, given as type classes.
    - [SearchStats] objects live in a store indexed by references, since the
      generator [search_irc_logs] mutates the object its caller holds. *)

From Stdlib Require Import Ascii String NArith ZArith QArith DecimalString Lia.
From stdpp Require Import base option list sorting gmap strings.

(** String concatenation computes under [simpl] in this file. *)
#[local] Arguments String.append !_ _ / : simpl nomatch.

(** ** Text: the [str] operations the programs use *)

Module Text.
Local Open Scope string_scope.

(** [str.lower]: the lower-casing of the Python the programs run on.  It
    is not a map of single characters (a capital sigma becomes one letter or
    another by its place in the word, some letters become two), so nothing
    is assumed of it but that the empty string stays empty. *)
Class Casing := {
  lower : string -> string;
  lower_empty : lower "" = ""
}.

(** [s.startswith(p)] *)
Fixpoint startswith (s p : string) {struct p} : bool :=
  match p, s with
  | EmptyString, _ => true
  | String _ _, EmptyString => false
  | String a p', String b s' => if Ascii.eqb a b then startswith s' p' else false
  end.

(** [q in s]: is there a position of [s] at which [q] starts? *)
Fixpoint str_in (q s : string) : bool :=
  startswith s q ||
  match s with
  | EmptyString => false
  | String _ s' => str_in q s'
  end.

(** [c in s] for a one-character needle is [str_in] at a singleton. *)
Definition char_in (c : ascii) (s : string) : bool := str_in (String c EmptyString) s.

(** [s[n:]] *)
Fixpoint drop (n : nat) (s : string) : string :=
  match n, s with
  | O, _ => s
  | S _, EmptyString => EmptyString
  | S n', String _ s' => drop n' s'
  end.

(** [s[:n]] for [n >= 0] *)
Fixpoint take (n : nat) (s : string) : string :=
  match n, s with
  | O, _ => EmptyString
  | S _, EmptyString => EmptyString
  | S n', String c s' => String c (take n' s')
  end.

(** [s.endswith(p)] *)
Definition endswith (s p : string) : bool :=
  (String.length p <=? String.length s)%nat &&
  String.eqb (drop (String.length s - String.length p) s) p.

(** [s[:-n]] for [n > 0]: everything but the last [n] characters. *)
Definition drop_last (n : nat) (s : string) : string :=
  take (String.length s - n) s.

(** The double quote, spelled by its code. *)
Definition dq : string := String (ascii_of_nat 34) EmptyString.

(** ["%d" % n] for a natural number. *)
Definition dec (n : nat) : string := NilEmpty.string_of_uint (Nat.to_uint n).

(** The engine's notion of a match: the lowered [q] occurs in the
    lowered [s]. *)
Definition contains_ci `{Casing} (q s : string) : Prop :=
  exists pre post, lower s = pre ++ lower q ++ post.

End Text.

(** ** Data model *)

Module datetime.

(** [datetime.date]: compared field by field, year first. *)
Record date := { year : nat; month : nat; day : nat }.

Definition ltb (a b : date) : bool :=
  ((year a <? year b) ||
   ((year a =? year b) && ((month a <? month b) ||
                           ((month a =? month b) && (day a <? day b)))))%nat.

Definition leb (a b : date) : bool := negb (ltb b a).

Global Instance date_eq_dec : EqDecision date.
Proof. solve_decision. Defined.

End datetime.

(** Modelled from the spec: [LogFile] of logs2html.py, which is not among
    the sources; the three attributes the search reads. *)

Module LogFile.

Record t := { filename : string; date : datetime.date; link : string }.

End LogFile.

(** Modelled from the spec: the events the parser of irclog2html.py hands
    out, "Comment(nick, text), NickChange(text, oldNick, newNick),
    Other(text)".  [Other] keeps the parser's label of the event, which the
    renderer receives. *)
Inductive LogEvent :=
| Comment (nick text : string)
| NickChange (text oldnick newnick : string)
| Other (kind text : string).

(** One item of [LogParser]'s iteration: [(timestamp, event, info)]. *)
Definition row : Type := string * LogEvent.

Module SearchStats.

Record t := { files : nat; lines : nat; matches : nat }.
(** [SearchStats()]: the class attributes are all [0]. *)
Definition new : t := {| files := 0; lines := 0; matches := 0 |}.

End SearchStats.

Module SearchResult.

Record t := { filename : string; link : string; date : datetime.date;
              time : string; event : LogEvent }.

End SearchResult.

(** The objects of class [SearchStats], by reference. *)
Abbreviation ref := nat (only parsing).
Abbreviation store := (gmap nat SearchStats.t) (only parsing).

Global Instance LogEvent_eq_dec : EqDecision LogEvent.
Proof. solve_decision. Defined.
Global Instance LogFile_eq_dec : EqDecision LogFile.t.
Proof. solve_decision. Defined.
Global Instance SearchResult_eq_dec : EqDecision SearchResult.t.
Proof. solve_decision. Defined.
Global Instance SearchStats_eq_dec : EqDecision SearchStats.t.
Proof. solve_decision. Defined.

(** What the search needs from its surroundings: [find_log_files] of
    logs2html.py, the rows [parse_log_file] reads from a file through
    [LogParser], the directory of the installed module, and [str.lower]. *)
Class LogStore := {
  find_log_files : string -> string -> list LogFile.t;
  parse_log_file : string -> list row;
  DEFAULT_LOGFILE_PATH : string;
  casing :: Text.Casing
}.

Definition DEFAULT_LOGFILE_PATTERN : string := "*.log".

(** [x or d] for an optional string: [None] and [''] are both false. *)
Definition or_default (x : option string) (d : string) : string :=
  match x with
  | Some (String c s) => String c s
  | _ => d
  end.

(** ** The search generator *)

(** The text of an event that the query is looked for in. *)
Definition flatten (ev : LogEvent) : string :=
  match ev with
  | Comment nick text => (nick ++ " " ++ text)%string
  | NickChange text _ _ => text
  | Other _ text => text
  end.

Definition add_files (l : ref) (h : store) : store :=
  alter (fun s => {| SearchStats.files := SearchStats.files s + 1;
                     SearchStats.lines := SearchStats.lines s;
                     SearchStats.matches := SearchStats.matches s |}) l h.

Definition add_lines (l : ref) (h : store) : store :=
  alter (fun s => {| SearchStats.files := SearchStats.files s;
                     SearchStats.lines := SearchStats.lines s + 1;
                     SearchStats.matches := SearchStats.matches s |}) l h.

Definition add_matches (l : ref) (h : store) : store :=
  alter (fun s => {| SearchStats.files := SearchStats.files s;
                     SearchStats.lines := SearchStats.lines s;
                     SearchStats.matches := SearchStats.matches s + 1 |}) l h.

Definition make_result (f : LogFile.t) (r : row) : SearchResult.t :=
  {| SearchResult.filename := LogFile.filename f;
     SearchResult.link := LogFile.link f;
     SearchResult.date := LogFile.date f;
     SearchResult.time := r.1;
     SearchResult.event := r.2 |}.

(** A generator object of [search_irc_logs]: not yet started (it holds its
    arguments), suspended at the [yield] (it holds the lowered query, the
    stats reference, the current file, the rows of that file still to be
    read and the files after it), or exhausted. *)
Inductive generator :=
| Unstarted (query : string) (stats : option ref) (where_ logfile_pattern : option string)
| Suspended (query : string) (stats : ref) (f : LogFile.t) (rows : list row)
            (files : list LogFile.t)
| Exhausted.

Section Search.
Context {logs : LogStore}.

(** The inner loop, from the current row to the next [yield] or to the end
    of the file. *)
Fixpoint scan_rows (query : string) (stats : ref) (f : LogFile.t)
         (rows : list row) (h : store)
  : option (SearchResult.t * list row) * store :=
  match rows with
  | [] => (None, h)
  | r :: rows' =>
      let text := flatten r.2 in
      let h := add_lines stats h in
      if Text.str_in query (Text.lower text)
      then (Some (make_result f r, rows'), add_matches stats h)
      else scan_rows query stats f rows' h
  end.

(** The outer loop, entered at the head of a file. *)
Fixpoint scan_files (query : string) (stats : ref) (files : list LogFile.t)
         (h : store) : option SearchResult.t * generator * store :=
  match files with
  | [] => (None, Exhausted, h)
  | f :: files' =>
      let h := add_files stats h in
      match scan_rows query stats f (parse_log_file (LogFile.filename f)) h with
      | (Some (res, rows'), h) => (Some res, Suspended query stats f rows' files', h)
      | (None, h) => scan_files query stats files' h
      end
  end.

(** [next(g)]: the result yielded, or [None] for [StopIteration]. *)
Definition gen_next (g : generator) (h : store)
  : option SearchResult.t * generator * store :=
  match g with
  | Unstarted query stats where_ logfile_pattern =>
      let where_ := or_default where_ DEFAULT_LOGFILE_PATH in
      let logfile_pattern := or_default logfile_pattern DEFAULT_LOGFILE_PATTERN in
      let '(stats, h) :=
        match stats with
        | Some l => (l, h)
        | None => let l := fresh (dom h) in (l, <[l := SearchStats.new]> h)
        end in
      let query := Text.lower query in
      let files := find_log_files where_ logfile_pattern in
      let files := rev files in
      scan_files query stats files h
  | Suspended query stats f rows files =>
      match scan_rows query stats f rows h with
      | (Some (res, rows'), h) => (Some res, Suspended query stats f rows' files, h)
      | (None, h) => scan_files query stats files h
      end
  | Exhausted => (None, Exhausted, h)
  end.

(** [search_irc_logs(query, stats, where, logfile_pattern)]: calling a
    generator function runs none of its body. *)
Definition search_irc_logs (query : string) (stats : option ref)
           (where_ logfile_pattern : option string) : generator :=
  Unstarted query stats where_ logfile_pattern.

(** At most [n] calls of [next], stopping at [StopIteration]. *)
Fixpoint gen_take (n : nat) (g : generator) (h : store)
  : list SearchResult.t * generator * store :=
  match n with
  | O => ([], g, h)
  | S n' =>
      match gen_next g h with
      | (None, g', h') => ([], g', h')
      | (Some res, g', h') =>
          let '(rs, g'', h'') := gen_take n' g' h' in (res :: rs, g'', h'')
      end
  end.

Definition total_rows (files : list LogFile.t) : nat :=
  sum_list_with (fun f => length (parse_log_file (LogFile.filename f))) files.

(** The rows a generator has yet to read: a bound on the results to come. *)
Definition rows_left (g : generator) : nat :=
  match g with
  | Unstarted _ _ where_ logfile_pattern =>
      total_rows (rev (find_log_files (or_default where_ DEFAULT_LOGFILE_PATH)
                         (or_default logfile_pattern DEFAULT_LOGFILE_PATTERN)))
  | Suspended _ _ _ rows files => length rows + total_rows files
  | Exhausted => 0
  end.

(** [list(g)]: the generator run until it is exhausted. *)
Definition gen_list (g : generator) (h : store)
  : list SearchResult.t * generator * store :=
  gen_take (S (rows_left g)) g h.

End Search.

(** ** Notions used to state the search's properties *)

(** [bump l df dl dm]: the three counters of the object at [l] raised. *)
Definition bump (l : ref) (df dl dm : nat) (h : store) : store :=
  alter (fun s => {| SearchStats.files := SearchStats.files s + df;
                     SearchStats.lines := SearchStats.lines s + dl;
                     SearchStats.matches := SearchStats.matches s + dm |}) l h.

Section SearchSpec.
Context {logs : LogStore}.

Definition matchesb (query : string) (r : row) : bool :=
  Text.str_in query (Text.lower (flatten r.2)).

(** The results one file contributes, from the rows given. *)
Definition hits (query : string) (f : LogFile.t) (rows : list row)
  : list SearchResult.t :=
  map (make_result f) (List.filter (matchesb query) rows).

Definition hits_files (query : string) (files : list LogFile.t)
  : list SearchResult.t :=
  flat_map (fun f => hits query f (parse_log_file (LogFile.filename f))) files.

(** The list of files a fresh generator will walk. *)
Definition files_of (where_ logfile_pattern : option string) : list LogFile.t :=
  rev (find_log_files (or_default where_ DEFAULT_LOGFILE_PATH)
         (or_default logfile_pattern DEFAULT_LOGFILE_PATTERN)).

(** The results a generator has yet to yield. *)
Definition pending (g : generator) : list SearchResult.t :=
  match g with
  | Unstarted query _ where_ logfile_pattern =>
      hits_files (Text.lower query) (files_of where_ logfile_pattern)
  | Suspended query _ f rows files => hits query f rows ++ hits_files query files
  | Exhausted => []
  end.

Definition files_left (g : generator) : nat :=
  match g with
  | Unstarted _ _ where_ logfile_pattern => length (files_of where_ logfile_pattern)
  | Suspended _ _ _ _ files => length files
  | Exhausted => 0
  end.

(** A started generator writes to the object at [l] only. *)
Definition writes_to (l : ref) (g : generator) : Prop :=
  match g with
  | Unstarted _ _ _ _ => False
  | Suspended _ l' _ _ _ => l' = l
  | Exhausted => True
  end.

(** One resumption of a generator that has [nf] files and [nr] rows
    ahead of it and [todo] results to give: what it yields, where it
    stops and what it adds to the counters at [l]. *)
Definition resumes (l : ref) (nf nr : nat) (todo : list SearchResult.t)
           (h : store) (out : option SearchResult.t * generator * store) : Prop :=
  exists df dl,
    out.2 = bump l df dl (length (option_list out.1.1)) h /\
    df + files_left out.1.2 = nf /\
    dl + rows_left out.1.2 = nr /\
    todo = option_list out.1.1 ++ pending out.1.2 /\
    writes_to l out.1.2 /\
    (out.1.1 = None -> out.1.2 = Exhausted).

(** The same for [n] resumptions of a started generator [g]. *)
Definition resumes_many (n : nat) (l : ref) (g : generator) (h : store)
           (out : list SearchResult.t * generator * store) : Prop :=
  exists df dl,
    out.2 = bump l df dl (length out.1.1) h /\
    df + files_left out.1.2 = files_left g /\
    dl + rows_left out.1.2 = rows_left g /\
    pending g = out.1.1 ++ pending out.1.2 /\
    writes_to l out.1.2 /\
    length out.1.1 <= n /\
    (length out.1.1 < n -> out.1.2 = Exhausted).

(** The reference and the store a generator works with once started. *)
Definition started_with (stats : option ref) (h : store) : ref * store :=
  match stats with
  | Some l => (l, h)
  | None => let l := fresh (dom h) in (l, <[l := SearchStats.new]> h)
  end.



End SearchSpec.

(** ** The index of log files *)

(** [f] put into a list sorted by date, before the files of its date. *)
Fixpoint insert_by_date (f : LogFile.t) (l : list LogFile.t) : list LogFile.t :=
  match l with
  | [] => [f]
  | g :: l' =>
      if datetime.leb (LogFile.date f) (LogFile.date g) then f :: g :: l'
      else g :: insert_by_date f l'
  end.

(** A stable sort by date, oldest first. *)
Definition sort_by_date (l : list LogFile.t) : list LogFile.t :=
  foldr insert_by_date [] l.

(** Modelled from the spec: [find_log_files] of logs2html.py, which is not
    among the sources.  "Given a base directory and a glob-style filename
    pattern, return the set of matching files, each annotated with its
    extracted date and a stable relative link"; "files whose name does not
    contain a YYYY-MM-DD date token are silently skipped"; the file-set
    resolver gives the names "unordered by date; LogFileIndex must
    sort/reverse".  The resolver, the date token of a name and the link of
    a name are parameters.  The sorting is done here, oldest date first,
    and the reversing by [search_irc_logs] ([files.reverse() # newest
    first]): the index the specification calls newest first is this list
    reversed. *)
Definition index_files (resolve : string -> string -> list string)
           (date_of : string -> option datetime.date) (link_of : string -> string)
           (directory pattern : string) : list LogFile.t :=
  sort_by_date
    (omap (fun name =>
             match date_of name with
             | Some d => Some {| LogFile.filename := name; LogFile.date := d;
                                 LogFile.link := link_of name |}
             | None => None
             end)
          (resolve directory pattern)).

(** The surroundings of the search when [find_log_files] is
    [index_files]. *)
Definition indexed_logs (resolve : string -> string -> list string)
           (date_of : string -> option datetime.date) (link_of : string -> string)
           (rows : string -> list row) (default : string) (lowering : Text.Casing)
  : LogStore :=
  {| find_log_files := index_files resolve date_of link_of;
     parse_log_file := rows;
     DEFAULT_LOGFILE_PATH := default;
     casing := lowering |}.

(** ** A small corpus, for running the definitions *)

Module Sample.

Definition code (c : ascii) : N := N_of_ascii c.

Definition ascii_upper (c : ascii) : bool := ((65 <=? code c) && (code c <=? 90))%N.

Definition ascii_lower (c : ascii) : bool := ((97 <=? code c) && (code c <=? 122))%N.

(** The case-ignorable ASCII characters: ' . : ^ and the grave accent. *)
Definition ascii_ignorable (c : ascii) : bool :=
  ((code c =? 39) || (code c =? 46) || (code c =? 58) || (code c =? 94)
   || (code c =? 96))%N.

(** Five Greek letters in UTF-8: capital alpha U+0391, capital sigma
    U+03A3, small alpha U+03B1, final small sigma U+03C2, small sigma
    U+03C3. *)
Definition Alpha : string := String "206" (String "145" EmptyString).
Definition Sigma : string := String "206" (String "163" EmptyString).
Definition alpha : string := String "206" (String "177" EmptyString).
Definition final_sigma : string := String "207" (String "130" EmptyString).
Definition sigma : string := String "207" (String "131" EmptyString).

(** Does [s] start with a cased letter? *)
Definition cased_at (s : string) : bool :=
  match s with
  | EmptyString => false
  | String c EmptyString => ascii_upper c || ascii_lower c
  | String c (String d _) =>
      ascii_upper c || ascii_lower c ||
      ((code c =? 206) && ((code d =? 145) || (code d =? 163) || (code d =? 177)))%N ||
      ((code c =? 207) && ((code d =? 130) || (code d =? 131)))%N
  end.

(** Does a cased letter come next in [s], case-ignorable characters
    apart? *)
Fixpoint cased_ahead (s : string) : bool :=
  match s with
  | EmptyString => false
  | String c s' => if ascii_ignorable c then cased_ahead s' else cased_at s
  end.

(** [str.lower] of Python 3 on the strings made of ASCII characters and
    these five Greek letters.  A capital sigma becomes the final sigma when
    a cased letter comes before it, case-ignorable characters apart, and
    none comes after it, and the small sigma otherwise; [prev] tells whether
    a cased letter comes before.  Bytes of other characters are copied. *)
Fixpoint lower_from (prev : bool) (s : string) : string :=
  match s with
  | EmptyString => EmptyString
  | String c s' =>
      let one :=
        if ascii_upper c then String (ascii_of_N (code c + 32)) (lower_from true s')
        else if ascii_lower c then String c (lower_from true s')
        else if ascii_ignorable c then String c (lower_from prev s')
        else String c (lower_from false s') in
      match s' with
      | EmptyString => one
      | String d s'' =>
          if ((code c =? 206) && (code d =? 145))%N then
            (alpha ++ lower_from true s'')%string
          else if ((code c =? 206) && (code d =? 163))%N then
            ((if prev && negb (cased_ahead s'') then final_sigma else sigma)
               ++ lower_from true s'')%string
          else if ((code c =? 206) && (code d =? 177))%N ||
                  ((code c =? 207) && ((code d =? 130) || (code d =? 131)))%N then
            String c (String d (lower_from true s''))
          else one
      end
  end.

Definition lowering : Text.Casing :=
  {| Text.lower := lower_from false; Text.lower_empty := eq_refl |}.

Definition on (y m d : nat) : datetime.date :=
  {| datetime.year := y; datetime.month := m; datetime.day := d |}.

Definition log (y m d : nat) (name : string) : LogFile.t :=
  {| LogFile.filename := ("logs/" ++ name)%string;
     LogFile.date := on y m d;
     LogFile.link := (name ++ ".html")%string |}.

Definition day1 : LogFile.t := log 2020 1 1 "chan.2020-01-01.log".
Definition day2 : LogFile.t := log 2020 1 2 "chan.2020-01-02.log".
Definition day3 : LogFile.t := log 2020 1 3 "chan.2020-01-03.log".

Definition rows_of (filename : string) : list row :=
  if String.eqb filename "logs/chan.2020-01-01.log" then
    [("10:00", Comment "alice" "Hello World");
     ("10:01", NickChange "alice is now known as al" "alice" "al");
     ("10:02", Other "JOIN" "carol has joined")]
  else if String.eqb filename "logs/chan.2020-01-02.log" then
    [("09:00", Comment "bob" "hello again")]
  else if String.eqb filename "logs/chan.2020-01-03.log" then
    [("08:00", Comment "carol" "well, HELLO there");
     ("08:05", Comment "bob" "bye")]
  else [].

(** [find_log_files] returning the files oldest first. *)
Definition sorted_logs : LogStore :=
  {| find_log_files := fun _ _ => [day1; day2; day3];
     parse_log_file := rows_of;
     DEFAULT_LOGFILE_PATH := "/usr/lib/irclog2html";
     casing := lowering |}.

Definition one_stats : gmap nat SearchStats.t := {[ 0 := SearchStats.new ]}.

(** A directory listed in no order of date, with one file without a
    date. *)
Definition listing (directory pattern : string) : list string :=
  ["logs/chan.2020-01-02.log"; "logs/README.log"; "logs/chan.2020-01-01.log";
   "logs/chan.2020-01-03.log"].

Definition date_token (name : string) : option datetime.date :=
  if String.eqb name "logs/chan.2020-01-01.log" then Some (on 2020 1 1)
  else if String.eqb name "logs/chan.2020-01-02.log" then Some (on 2020 1 2)
  else if String.eqb name "logs/chan.2020-01-03.log" then Some (on 2020 1 3)
  else None.

Definition listed_logs : LogStore :=
  indexed_logs listing date_token (fun name => (name ++ ".html")%string) rows_of
               "/usr/lib/irclog2html" lowering.



End Sample.

(** ** The result presenter *)

(** What the presenter needs from irclog2html.py and the standard
    library: the [NickColourizer] objects with their two operations
    ([colour_of] is [__getitem__], which may assign a colour), the prefix
    and suffix of [XHTMLTableStyle], [escape], [VERSION] and [RELEASE],
    urllib's [quote], and [date.strftime('%Y-%m-%d (%A)')]. *)
Class Renderer := {
  colourizer : Type;
  NickColourizer : colourizer;
  colour_of : colourizer -> string -> string * colourizer;
  change : colourizer -> string -> string -> colourizer;
  style_prefix : string;
  style_suffix : string;
  escape : string -> string;
  quote : string -> string;
  strftime : datetime.date -> string;
  VERSION : string;
  RELEASE : string
}.

(** What reaches the output: a line printed to the text stream, or a call
    of the style object, which writes to the byte stream underneath. *)
Inductive output :=
| Print (line : string)
| Nicktext (time nick text htmlcolour link : string)
| Servermsg (time kind text link : string).

Definition is_call (o : output) : bool :=
  match o with
  | Print _ => false
  | _ => true
  end.

(** Modelled from the spec: the labels [LogParser.COMMENT] and
    [LogParser.NICKCHANGE] of irclog2html.py, as [result.event] carries
    them. *)
Definition kind_of (ev : LogEvent) : string :=
  match ev with
  | Comment _ _ => "COMMENT"
  | NickChange _ _ _ => "NICKCHANGE"
  | Other kind _ => kind
  end.

Definition nl : string := String (ascii_of_nat 10) EmptyString.

(** ["\n".join(ls)] *)
Fixpoint unlines (ls : list string) : string :=
  match ls with
  | [] => ""
  | [l] => l
  | l :: ls' => (l ++ nl ++ unlines ls')%string
  end.

(** ["%.1f" % t] for the rational [t] a float denotes: the nearest
    multiple of one tenth, a tie going to the even one. *)
Definition tenths (t : Q) : Z :=
  let a := (Z.abs (Qnum t) * 10)%Z in
  let d := Zpos (Qden t) in
  let q := (a / d)%Z in
  let r := (a mod d)%Z in
  if (d <? 2 * r)%Z then (q + 1)%Z
  else if (2 * r =? d)%Z then (if Z.even q then q else (q + 1)%Z)
  else q.

Definition format_1f (t : Q) : string :=
  ((if (Qnum t <? 0)%Z then "-" else "") ++
   Text.dec (Z.to_nat (tenths t / 10)) ++ "." ++
   Text.dec (Z.to_nat (tenths t mod 10)))%string.

(** The exceptions that leave the code modelled here.  [IOError] stands
    for [OSError] and all that derives from it, which is what
    [except IOError] catches; [UnicodeDecodeError] derives from
    [ValueError], and none of the other four from [IOError]. *)
Inductive exception :=
| IOError
| ValueError
| UnicodeDecodeError
| AttributeError
| TypeError.

(** The [cgi.FieldStorage] of a request, as [search_page] reads it:
    ["q" in form] raises [TypeError] when the body of the request is not a
    form ([form.list] is [None]); [form["q"]] is one field when [q] was
    given once, with a [value] that is text, or bytes decoded as UTF-8, and
    a list of fields when [q] was given more than once. *)
Inductive FieldStorage :=
| NotIndexable
| NoField
| OneValue (value : string)
| Undecodable
| ManyValues.

(** What a function that prints to the stream did: the lines written
    when it returns, or the exception it raised. *)
Inductive page :=
| Written (out : list output)
| Failed (e : exception).

Section Presenter.
Context {logs : LogStore} {renderer : Renderer}.
Import Text.
Local Open Scope string_scope.

Definition HEADER : string :=
  unlines
    [ "<!DOCTYPE html PUBLIC " ++ dq ++ "-//W3C//DTD XHTML 1.0 Strict//EN" ++ dq;
      "          " ++ dq ++ "http://www.w3.org/TR/xhtml1/DTD/xhtml1-strict.dtd" ++ dq ++ ">";
      "<html>";
      "<head>";
      "  <meta http-equiv=" ++ dq ++ "Content-Type" ++ dq ++ " content=" ++ dq
        ++ "text/html; charset=" ++ "UTF-8" ++ dq ++ " />";
      "  <title>" ++ escape "Search IRC logs" ++ "</title>";
      "  <link rel=" ++ dq ++ "stylesheet" ++ dq ++ " href=" ++ dq ++ "irclog.css" ++ dq ++ " />";
      "  <meta name=" ++ dq ++ "generator" ++ dq ++ " content=" ++ dq
        ++ "irclogsearch.py " ++ VERSION ++ " by Marius Gedminas" ++ dq ++ " />";
      "  <meta name=" ++ dq ++ "version" ++ dq ++ " content=" ++ dq
        ++ VERSION ++ " - " ++ RELEASE ++ dq ++ " />";
      "</head>";
      "<body>" ].

Definition FOOTER : string :=
  unlines
    [ "";
      "<div class=" ++ dq ++ "generatedby" ++ dq ++ ">";
      "<p>Generated by irclogsearch.py " ++ VERSION ++ " by <a href=" ++ dq
        ++ "mailto:marius@pov.lt" ++ dq ++ ">Marius Gedminas</a>";
      " - find it at <a href=" ++ dq ++ "http://mg.pov.lt/irclog2html/" ++ dq
        ++ ">mg.pov.lt</a>!</p>";
      "</div>";
      "</body>";
      "</html>" ].

Definition urlescape (link : string) : string := escape (quote link).

(** [SearchResultFormatter]: of its attributes only [nick_colour] ever
    changes, so a formatter is the state of its colourizer.
    [SearchResultFormatter(stream)] makes the one [NickColourizer()]. *)
Definition SearchResultFormatter : colourizer := NickColourizer.

Definition print_prefix : output := Print style_prefix.
Definition print_suffix : output := Print style_suffix.

Definition print_html (formatter : colourizer) (result : SearchResult.t)
  : output * colourizer :=
  let link := urlescape (SearchResult.link result) in
  match SearchResult.event result with
  | Comment nick text =>
      let '(htmlcolour, formatter) := colour_of formatter nick in
      (Nicktext (SearchResult.time result) nick text htmlcolour link, formatter)
  | NickChange text oldnick newnick =>
      let formatter := change formatter oldnick newnick in
      (Servermsg (SearchResult.time result) (kind_of (SearchResult.event result))
                 text link, formatter)
  | Other _ text =>
      (Servermsg (SearchResult.time result) (kind_of (SearchResult.event result))
                 text link, formatter)
  end.

Definition print_search_form : list output :=
  [ Print HEADER;
    Print "<h1>Search IRC logs</h1>";
    Print ("<form action=" ++ dq ++ dq ++ " method=" ++ dq ++ "get" ++ dq ++ ">");
    Print ("<input type=" ++ dq ++ "text" ++ dq ++ " name=" ++ dq ++ "q" ++ dq ++ " />");
    Print ("<input type=" ++ dq ++ "submit" ++ dq ++ " />");
    Print "</form>";
    Print FOOTER ].

(** The local variables of [print_search_results] that its loop changes,
    and what has been written so far. *)
Record frame := {
  date : option datetime.date;
  prev_result : option SearchResult.t;
  formatter : colourizer;
  written : list output
}.

Definition ul_open : string := "<ul class=" ++ dq ++ "searchresults" ++ dq ++ ">".

Definition li_open (result : SearchResult.t) : string :=
  "  <li><a href=" ++ dq ++ urlescape (SearchResult.link result) ++ dq ++ ">"
    ++ strftime (SearchResult.date result) ++ "</a>:".

(** The body of the [for] loop, for one [result]. *)
Definition loop_body (fr : frame) (result : SearchResult.t) : frame :=
  let new_date := negb (bool_decide (date fr = Some (SearchResult.date result))) in
  let w1 :=
    if new_date then
      ((if prev_result fr is Some _ then [print_suffix] else []) ++
       (if date fr is Some _ then [Print "  </li>"] else [Print ul_open]) ++
       [Print (li_open result)])%list
    else [] in
  let prev := if new_date then None else prev_result fr in
  let w2 := if prev is Some _ then [] else [print_prefix] in
  let '(call, formatter') := print_html (formatter fr) result in
  {| date := if new_date then Some (SearchResult.date result) else date fr;
     prev_result := Some result;
     formatter := formatter';
     written := (written fr ++ w1 ++ w2 ++ [call])%list |}.

(** The [for] loop: [next] on the generator until it stops. *)
Fixpoint for_results (fuel : nat) (g : generator) (h : gmap nat SearchStats.t)
         (fr : frame) : frame * gmap nat SearchStats.t :=
  match fuel with
  | O => (fr, h)
  | S fuel' =>
      match gen_next g h with
      | (None, _, h') => (fr, h')
      | (Some result, g', h') => for_results fuel' g' h' (loop_body fr result)
      end
  end.

Definition stats_line (stats : SearchStats.t) (total_time : Q) : string :=
  "<p>" ++ dec (SearchStats.matches stats) ++ " matches in "
    ++ dec (SearchStats.files stats) ++ " log files with "
    ++ dec (SearchStats.lines stats) ++ " lines ("
    ++ format_1f total_time ++ " seconds).</p>".

(** The lines written before the search starts. *)
Definition preamble (query : string) : list output :=
  [ Print HEADER;
    Print ("<h1>IRC log search results for " ++ escape query ++ "</h1>");
    Print ("<form action=" ++ dq ++ dq ++ " method=" ++ dq ++ "get" ++ dq ++ ">");
    Print ("<input type=" ++ dq ++ "text" ++ dq ++ " name=" ++ dq ++ "q" ++ dq
             ++ " value=" ++ dq ++ escape query ++ dq ++ " />");
    Print ("<input type=" ++ dq ++ "submit" ++ dq ++ " />");
    Print "</form>" ].

(** [print_search_results(query, where, logfile_pattern, stream)]; the
    two readings of the clock differ by [total_time].  Returns what was
    written and the formatter. *)
Definition print_search_results (total_time : Q) (query : string)
           (where_ logfile_pattern : option string) : list output * colourizer :=
  let fr := {| date := None; prev_result := None;
               formatter := SearchResultFormatter;
               written := preamble query |} in
  let stats := fresh (dom (∅ : gmap nat SearchStats.t)) in
  let h := <[stats := SearchStats.new]> (∅ : gmap nat SearchStats.t) in
  let g := search_irc_logs query (Some stats) where_ logfile_pattern in
  let '(fr, h) := for_results (S (rows_left g)) g h fr in
  let w1 := if prev_result fr is Some _ then [print_suffix] else [] in
  let w2 := if date fr is Some _ then [Print "  </li>"; Print "</ul>"] else [] in
  let stats := default SearchStats.new (h !! stats) in
  ((written fr ++ w1 ++ w2 ++
    [Print (stats_line stats total_time); Print FOOTER])%list,
   formatter fr).

(** [search_page(stream, form, where, logfile_pattern)]: what it writes
    to the stream, or the exception that leaves it.  [form["q"]] is a list
    when [q] was given more than once, and a list has no [value].  The
    search itself is taken to return, as [find_log_files] and
    [parse_log_file] are. *)
Definition search_page (total_time : Q) (form : FieldStorage)
           (where_ logfile_pattern : option string) : page :=
  match form with
  | NotIndexable => Failed TypeError
  | NoField => Written print_search_form
  | OneValue search_text =>
      Written (print_search_results total_time search_text where_ logfile_pattern).1
  | Undecodable => Failed UnicodeDecodeError
  | ManyValues => Failed AttributeError
  end.

End Presenter.

(** ** Notions used to state the presenter's properties *)

Section PresenterSpec.
Context {logs : LogStore} {renderer : Renderer}.
Import Text.

(** What is written once the results have run out. *)
Definition closing (fr : frame) : list output :=
  (if prev_result fr is Some _ then [print_suffix] else []) ++
  (if date fr is Some _ then [Print "  </li>"; Print "</ul>"] else []).

(** The renderer calls for a run of results when one colourizer is
    handed from each result to the next, whatever the dates. *)
Fixpoint render_all (c : colourizer) (rs : list SearchResult.t) : list output :=
  match rs with
  | [] => []
  | r :: rs' => (print_html c r).1 :: render_all (print_html c r).2 rs'
  end.

Fixpoint final_formatter (c : colourizer) (rs : list SearchResult.t) : colourizer :=
  match rs with
  | [] => c
  | r :: rs' => final_formatter (print_html c r).2 rs'
  end.

(** The renderer calls for a run of results when every change of date
    starts from a new colourizer: what the specification describes. *)
Fixpoint render_reset (d : option datetime.date) (c : colourizer)
         (rs : list SearchResult.t) : list output :=
  match rs with
  | [] => []
  | r :: rs' =>
      let c0 := if bool_decide (d = Some (SearchResult.date r)) then c
                else NickColourizer in
      (print_html c0 r).1
        :: render_reset (Some (SearchResult.date r)) (print_html c0 r).2 rs'
  end.


End PresenterSpec.

(** ** The WSGI handlers *)

(** The part of the WSGI environment the handlers read, with the
    [cgi.FieldStorage] the handler has built from it as [form]. *)
Record environ := {
  PATH_INFO : option string;
  IRCLOG_LOCATION : option string;
  IRCLOG_GLOB : option string;
  form : FieldStorage
}.

Record response := {
  status : string;
  headers : list (string * string);
  body : list string
}.

(** A handler returns a response through [start_response] and its result,
    or an exception leaves it. *)
Inductive outcome :=
| Returned (r : response)
| Raised (e : exception).

(** What a handler did to the file system: a file opened for reading, or
    a search through the logs of a directory. *)
Inductive access :=
| Opened (path : string)
| Searched (where_ logfile_pattern : string).

(** [with open(path, "rb") as f: f.read()]: the bytes of the file, or the
    exception raised: [IOError] for a file that is not there or cannot be
    read, [ValueError] for a name with a NUL character. *)
Inductive opened :=
| Read (content : string)
| Fails (e : exception).

(** What the handlers need from their surroundings: [open(path, "rb")]
    with [read()]; [os.path.join] of the platform; the path [CSS_FILE];
    [LogParser.decode] and [str.encode('UTF-8')]; [convert_irc_log] with a
    parser on the file's content and an [XHTMLTableStyle], as the bytes it
    writes; the bytes the text stream has buffered after the search page
    was written to it; and the time the search took. *)
Class Site := {
  read_file : string -> opened;
  path_join : string -> string -> string;
  CSS_FILE : string;
  text : Type;
  decode : string -> text;
  encode_utf8 : text -> string;
  convert_irc_log : string -> string -> string;
  getvalue : list output -> string;
  total_time : Q
}.

(** [os.path.join(a, b)] of posixpath. *)
Definition posixpath_join (a b : string) : string :=
  if Text.startswith b "/" then b
  else if String.eqb a "" || Text.endswith a "/" then (a ++ b)%string
  else (a ++ "/" ++ b)%string.

(** [bytes.splitlines(True)]: lines end at LF, at CR and at CR LF, and keep
    their line ends.  [cur] is the line being read, reversed. *)
Fixpoint splitlines_from (cur : list ascii) (s : string) : list string :=
  let line := string_of_list_ascii (rev cur) in
  match s with
  | EmptyString => if cur is [] then [] else [line]
  | String c s' =>
      if Ascii.eqb c "010" then
        (line ++ String c EmptyString)%string :: splitlines_from [] s'
      else if Ascii.eqb c "013" then
        match s' with
        | String c' s'' =>
            if Ascii.eqb c' "010" then
              (line ++ String c (String c' EmptyString))%string :: splitlines_from [] s''
            else (line ++ String c EmptyString)%string :: splitlines_from [] s'
        | EmptyString => [(line ++ String c EmptyString)%string]
        end
      else splitlines_from (c :: cur) s'
  end.

(** A [dict] with string keys, in insertion order. *)
Fixpoint dict_set (k v : string) (d : list (string * string)) : list (string * string) :=
  match d with
  | [] => [(k, v)]
  | (k', v') :: d' =>
      if String.eqb k' k then (k, v) :: d' else (k', v') :: dict_set k v d'
  end.

(** The order of tuples of two strings. *)
Definition pair_leb (a b : string * string) : bool :=
  match String.compare a.1 b.1 with
  | Lt => true
  | Gt => false
  | Eq => String.leb a.2 b.2
  end.

Fixpoint insert_sorted (x : string * string) (l : list (string * string))
  : list (string * string) :=
  match l with
  | [] => [x]
  | y :: l' => if pair_leb x y then x :: l else y :: insert_sorted x l'
  end.

(** [sorted(headers.items())] *)
Definition sorted (items : list (string * string)) : list (string * string) :=
  foldr insert_sorted [] items.

(** The end of both handlers: the content type joins the headers, which
    are handed to [start_response] in order. *)
Definition respond (status : string) (headers : list (string * string))
           (content_type : string) (result : list string) : outcome :=
  Returned {| status := status;
              headers := sorted (dict_set "Content-Type" content_type headers);
              body := result |}.

Module irclogserver.

Section Handler.
Context {logs : LogStore} {renderer : Renderer} {site : Site}.

Definition get_path (environ : environ) : option string :=
  let path := default "/" (PATH_INFO environ) in
  let path := Text.drop 1 path in
  if Text.char_in "/" path || Text.char_in "\" path then None
  else Some (if String.eqb path "" then "index.html" else path).

(** [application(environ, start_response)]: what it returns or raises,
    and its accesses to the file system in order. *)
Definition application (environ : environ) : outcome * list access :=
  let logfile_path := or_default (IRCLOG_LOCATION environ) DEFAULT_LOGFILE_PATH in
  let logfile_pattern := or_default (IRCLOG_GLOB environ) DEFAULT_LOGFILE_PATTERN in
  let status := "200 Ok" in
  let content_type := "text/html; charset=UTF-8" in
  match get_path environ with
  | None => (respond "404 Not Found" [] "text/plain" ["Not found"], [])
  | Some path =>
      if String.eqb path "search" then
        let searched :=
          if form environ is OneValue _ then [Searched logfile_path logfile_pattern]
          else [] in
        match search_page total_time (form environ)
                          (Some logfile_path) (Some logfile_pattern) with
        | Written page => (respond status [] content_type [getvalue page], searched)
        | Failed e => (Raised e, searched)
        end
      else if String.eqb path "irclog.css" then
        match read_file CSS_FILE with
        | Read css => (respond status [] "text/css" [css], [Opened CSS_FILE])
        | Fails IOError =>
            (respond "404 Not Found" [] "text/plain" ["Not found"], [Opened CSS_FILE])
        | Fails e => (Raised e, [Opened CSS_FILE])
        end
      else
        match read_file (path_join logfile_path path) with
        | Fails IOError =>
            if String.eqb path "index.html" then
              (respond "302 Found" (dict_set "Location" "/search" [])
                       "text/plain" ["Try /search"],
               [Opened (path_join logfile_path path)])
            else if Text.endswith path ".html" then
              let name := Text.drop_last 5 path in
              match read_file (path_join logfile_path name) with
              | Read log =>
                  (respond status [] content_type [convert_irc_log log name],
                   [Opened (path_join logfile_path path);
                    Opened (path_join logfile_path name)])
              | Fails e =>
                  (Raised e,
                   [Opened (path_join logfile_path path);
                    Opened (path_join logfile_path name)])
              end
            else
              (respond "404 Not Found" [] "text/plain" ["Not found"],
               [Opened (path_join logfile_path path)])
        | Fails e => (Raised e, [Opened (path_join logfile_path path)])
        | Read content =>
            (if Text.endswith path ".css" then
               respond status [] "text/css" [content]
             else if Text.endswith path ".log" || Text.endswith path ".txt" then
               respond status [] "text/plain; charset=UTF-8"
                       (map (fun line => encode_utf8 (decode line))
                            (splitlines_from [] content))
             else respond status [] content_type [content],
             [Opened (path_join logfile_path path)])
        end
  end.

End Handler.

End irclogserver.

Module irclogsearch.

Section Handler.
Context {logs : LogStore} {renderer : Renderer} {site : Site}.

Definition get_path (environ : environ) : option string :=
  let path := default "/" (PATH_INFO environ) in
  let path := Text.drop 1 path in
  if Text.char_in "/" path || Text.char_in "\" path then None
  else Some (if String.eqb path "" then "index.html" else path).

(** [wsgi(environ, start_response)]: what it returns or raises, and its
    accesses to the file system in order. *)
Definition wsgi (environ : environ) : outcome * list access :=
  let logfile_path := or_default (IRCLOG_LOCATION environ) DEFAULT_LOGFILE_PATH in
  let logfile_pattern := or_default (IRCLOG_GLOB environ) DEFAULT_LOGFILE_PATTERN in
  let status := "200 Ok" in
  let content_type := "text/html; charset=UTF-8" in
  match get_path environ with
  | None => (respond "404 Not Found" [] content_type ["Not found"], [])
  | Some path =>
      if String.eqb path "search" then
        let searched :=
          if form environ is OneValue _ then [Searched logfile_path logfile_pattern]
          else [] in
        match search_page total_time (form environ)
                          (Some logfile_path) (Some logfile_pattern) with
        | Written page => (respond status [] content_type [getvalue page], searched)
        | Failed e => (Raised e, searched)
        end
      else if String.eqb path "irclog.css" then
        let content_type := "text/css" in
        match read_file CSS_FILE with
        | Read css => (respond status [] content_type [css], [Opened CSS_FILE])
        | Fails IOError =>
            (respond "404 Not Found" [] content_type ["Not found"], [Opened CSS_FILE])
        | Fails e => (Raised e, [Opened CSS_FILE])
        end
      else
        let content_type :=
          if Text.endswith path ".css" then "text/css" else content_type in
        let content_type :=
          if Text.endswith path ".log" || Text.endswith path ".txt"
          then "text/plain" else content_type in
        match read_file (path_join logfile_path path) with
        | Read content =>
            (respond status [] content_type [content],
             [Opened (path_join logfile_path path)])
        | Fails IOError =>
            if String.eqb path "index.html" then
              (respond "302 Found" (dict_set "Location" "/search" [])
                       content_type ["Try /search"],
               [Opened (path_join logfile_path path)])
            else
              (respond "404 Not Found" [] content_type ["Not found"],
               [Opened (path_join logfile_path path)])
        | Fails e => (Raised e, [Opened (path_join logfile_path path)])
        end
  end.

End Handler.

End irclogsearch.

(** ** A small site, for running the handlers *)

Module SampleSite.
Import Text.
Local Open Scope string_scope.

(** Modelled from the spec: the renderer's "participant -> colour
    assignment table with an explicit rename(old, new) operation".
    Colours are numbered in the order nicks first appear. *)
Definition table : Type := nat * list (string * string).

Fixpoint find_nick (nick : string) (t : list (string * string)) : option string :=
  match t with
  | [] => None
  | (n, c) :: t' => if String.eqb n nick then Some c else find_nick nick t'
  end.

Definition table_colour (t : table) (nick : string) : string * table :=
  match find_nick nick t.2 with
  | Some c => (c, t)
  | None => let c := "colour" ++ dec (S t.1) in (c, (S t.1, (nick, c) :: t.2))
  end.

Definition table_change (t : table) (oldnick newnick : string) : table :=
  match find_nick oldnick t.2 with
  | Some c =>
      (t.1, (newnick, c) :: List.filter (fun e => negb (String.eqb e.1 oldnick)) t.2)
  | None => t
  end.

Fixpoint escape_sample (s : string) : string :=
  match s with
  | EmptyString => EmptyString
  | String c s' =>
      (if Ascii.eqb c "&" then "&amp;"
       else if Ascii.eqb c "<" then "&lt;"
       else if Ascii.eqb c ">" then "&gt;"
       else String c EmptyString) ++ escape_sample s'
  end.

Definition renderer : Renderer :=
  {| colourizer := table;
     NickColourizer := (0, []);
     colour_of := table_colour;
     change := table_change;
     style_prefix := "<table class=" ++ dq ++ "irclog" ++ dq ++ ">";
     style_suffix := "</table>";
     escape := escape_sample;
     quote := fun s => s;
     strftime := fun d => dec (datetime.year d) ++ "-" ++ dec (datetime.month d)
                            ++ "-" ++ dec (datetime.day d);
     VERSION := "2.15";
     RELEASE := "2015" |}.

(** A directory that holds one binary file, one log and one style
    sheet, and no [index.html]; a name with a NUL character is refused
    before the file system is asked. *)
Definition files (path : string) : opened :=
  if char_in "000" path then Fails ValueError
  else if String.eqb path "/srv/logs/notes.bin" then Read "0123"
  else if String.eqb path "/srv/logs/chan.2020-01-01.log" then
    Read ("10:00 <alice> Hello World" ++ nl ++ "10:02 * carol has joined")
  else if String.eqb path "/srv/logs/print.css" then Read "td { color: black }"
  else if String.eqb path "/srv/logs/.." then Read "passwd"
  else Fails IOError.

Definition site : Site :=
  {| read_file := files;
     path_join := posixpath_join;
     CSS_FILE := "/usr/lib/irclog2html/irclog.css";
     text := string;
     decode := fun b => b;
     encode_utf8 := fun s => s;
     convert_irc_log := fun log title => "<html>" ++ title ++ nl ++ log ++ "</html>";
     getvalue := fun page => unlines (omap (fun o => if o is Print l then Some l else None) page);
     total_time := 3 # 8 |}.

Definition request (path : string) : environ :=
  {| PATH_INFO := Some path; IRCLOG_LOCATION := Some "/srv/logs";
     IRCLOG_GLOB := None; form := NoField |}.

Definition query (q : FieldStorage) : environ :=
  {| PATH_INFO := Some "/search"; IRCLOG_LOCATION := Some "/srv/logs";
     IRCLOG_GLOB := None; form := q |}.

End SampleSite.

(** ** Notions used to state the handlers' properties *)

Section HandlerSpec.
Context {logs : LogStore} {renderer : Renderer} {site : Site}.

(** The inbound path: [PATH_INFO] without its first character. *)
Definition inbound_path (e : environ) : string :=
  Text.drop 1 (default "/" (PATH_INFO e)).

Definition has_separator (path : string) : bool :=
  Text.char_in "/" path || Text.char_in "\" path.

Definition base_dir (e : environ) : string :=
  or_default (IRCLOG_LOCATION e) DEFAULT_LOGFILE_PATH.

Definition not_found (content_type : string) : response :=
  {| status := "404 Not Found";
     headers := [("Content-Type", content_type)];
     body := ["Not found"] |}.

(** The content type each handler gives a file it serves. *)
Definition served_type (plain : string) (path : string) : string :=
  if Text.endswith path ".css" then "text/css"
  else if Text.endswith path ".log" || Text.endswith path ".txt" then plain
  else "text/html; charset=UTF-8".

Definition with_path (e : environ) (p : string) : environ :=
  {| PATH_INFO := Some p; IRCLOG_LOCATION := IRCLOG_LOCATION e;
     IRCLOG_GLOB := IRCLOG_GLOB e; form := form e |}.

End HandlerSpec.

(** ** Notions used to state further properties *)

(** The object at [l] went from [s] to [s']: no counter fell, [dm] matches
    were added and at least as many lines. *)
Definition counted_up (dm : nat) (s s' : SearchStats.t) : Prop :=
  SearchStats.files s <= SearchStats.files s' /\
  SearchStats.lines s + dm <= SearchStats.lines s' /\
  SearchStats.matches s' = SearchStats.matches s + dm.

(** A store changed at [l] only, by adding [dm] matches and at least as
    many lines. *)
Definition advanced (l : ref) (dm : nat) (h h' : store) : Prop :=
  exists df dl, h' = bump l df dl dm h /\ dm <= dl.

Section MoreSpec.
Context {logs : LogStore} {renderer : Renderer}.

(** A row the query does not occur in. *)
Definition misses (query : string) (r : row) : Prop :=
  ~ Text.contains_ci query (flatten r.2).

(** The results with the renderer call made for each, one colourizer
    handed along. *)
Definition rendered (c : colourizer) (rs : list SearchResult.t)
  : list (SearchResult.t * output) :=
  zip rs (render_all c rs).

(** The runs of consecutive results of one date. *)
Fixpoint group_by_date (xs : list (SearchResult.t * output))
  : list (list (SearchResult.t * output)) :=
  match xs with
  | [] => []
  | x :: xs' =>
      match group_by_date xs' with
      | (y :: g) :: gs =>
          if bool_decide (SearchResult.date x.1 = SearchResult.date y.1)
          then (x :: y :: g) :: gs
          else [x] :: (y :: g) :: gs
      | _ => [[x]]
      end
  end.

(** The list item of one run: its heading comes from the first result. *)
Definition group_markup (g : list (SearchResult.t * output)) : list output :=
  match g with
  | [] => []
  | x :: _ =>
      Print (li_open x.1) :: print_prefix ::
        map snd g ++ [print_suffix; Print "  </li>"]
  end.

(** The list of results of a page, as a whole. *)
Definition page_body (rs : list SearchResult.t) : list output :=
  match rs with
  | [] => []
  | _ => Print ul_open ::
           flat_map group_markup (group_by_date (rendered NickColourizer rs)) ++
           [Print "</ul>"]
  end.




End MoreSpec.

Section HandlerMoreSpec.
Context {logs : LogStore} {site : Site}.

(** A path made of the base directory and one name without slash or
    backslash.  Nothing more is said of where it leads: [..] is such a
    name. *)
Definition joined (e : environ) (name p : string) : Prop :=
  has_separator name = false /\ p = path_join (base_dir e) name.

End HandlerMoreSpec.

(** [b''.join(chunks)]: the chunks of a response body as one byte
    string. *)
Fixpoint bytes_join (chunks : list string) : string :=
  match chunks with
  | [] => EmptyString
  | c :: chunks' => (c ++ bytes_join chunks')%string
  end.

(** * Properties *)

(** ** The text operations, run *)

Example lower_mixed :
  Text.lower (Casing := Sample.lowering) "Hello, World [X]" = "hello, world [x]".
Proof. reflexivity. Qed.

Example lower_sigma :
  Text.lower (Casing := Sample.lowering) Sample.Sigma = Sample.sigma /\
  Text.lower (Casing := Sample.lowering) (Sample.Alpha ++ Sample.Sigma)%string =
    (Sample.alpha ++ Sample.final_sigma)%string /\
  Text.lower (Casing := Sample.lowering)
    (Sample.Alpha ++ Sample.Sigma ++ "'" ++ Sample.Alpha)%string =
    (Sample.alpha ++ Sample.sigma ++ "'" ++ Sample.alpha)%string /\
  Text.lower (Casing := Sample.lowering) (Sample.Alpha ++ Sample.Sigma ++ " a")%string =
    (Sample.alpha ++ Sample.final_sigma ++ " a")%string.
Proof. repeat split. Qed.

Example str_in_examples :
  Text.str_in "lo w" "hello world" = true /\ Text.str_in "" "" = true /\
  Text.str_in "x" "" = false /\ Text.str_in "ab" "aab" = true /\
  Text.str_in "abc" "ab" = false.
Proof. repeat split. Qed.

Example endswith_examples :
  Text.endswith "a.log.html" ".html" = true /\ Text.endswith "html" ".html" = false /\
  Text.endswith "a.HTML" ".html" = false /\ Text.drop_last 5 "a.log.html" = "a.log" /\
  Text.drop_last 5 ".html" = "".
Proof. repeat split. Qed.

Example dec_examples : Text.dec 0 = "0" /\ Text.dec 1207 = "1207".
Proof. split; reflexivity. Qed.

(** ** Text *)

Module TextFacts.
Import Text.
Local Open Scope string_scope.

Lemma startswith_spec s p :
  startswith s p = true <-> exists post, s = p ++ post.
Proof.
  revert s; induction p as [|a p IH]; intros s; simpl.
  - split; [intros _; by exists s | done].
  - destruct s as [|b s].
    + split; [done | intros [post Hp]; discriminate].
    + destruct (Ascii.eqb_spec a b) as [->|Hab].
      * rewrite IH. split; intros [post Hp]; exists post; simpl in *; congruence.
      * split; [done | intros [post Hp]; simpl in Hp; congruence].
Qed.

Lemma str_in_spec q s :
  str_in q s = true <-> exists pre post, s = pre ++ q ++ post.
Proof.
  induction s as [|c s IH]; simpl.
  - rewrite orb_false_r, startswith_spec. split.
    + intros [post Hp]. by exists "", post.
    + intros [pre [post Hp]]. destruct pre; simpl in Hp; [by exists post | done].
  - rewrite orb_true_iff, startswith_spec, IH. split.
    + intros [[post Hp] | [pre [post Hp]]].
      * by exists "", post.
      * exists (String c pre), post. simpl. by rewrite Hp.
    + intros [pre [post Hp]]. destruct pre as [|c' pre]; simpl in Hp.
      * left. by exists post.
      * right. exists pre, post. congruence.
Qed.

Lemma str_in_empty s : str_in "" s = true.
Proof. destruct s; reflexivity. Qed.

(** The test the engine performs, as a statement. *)
Lemma str_in_lower `{Casing} q s :
  str_in (lower q) (lower s) = true <-> contains_ci q s.
Proof. apply str_in_spec. Qed.

Lemma contains_ci_empty `{Casing} s : contains_ci "" s.
Proof. exists "", (lower s). by rewrite lower_empty. Qed.

End TextFacts.

(** ** The search *)

Section SearchFacts.
Context {logs : LogStore}.

Lemma bump_zero l h : bump l 0 0 0 h = h.
Proof.
  unfold bump. apply alter_id. intros [a b c] _; simpl.
  by rewrite !Nat.add_0_r.
Qed.

Lemma bump_bump l a b c a' b' c' h :
  bump l a b c (bump l a' b' c' h) = bump l (a' + a) (b' + b) (c' + c) h.
Proof.
  unfold bump. rewrite alter_alter_eq. apply alter_ext.
  intros [x y z] _; simpl. by rewrite !Nat.add_assoc.
Qed.

Lemma add_files_bump l h : add_files l h = bump l 1 0 0 h.
Proof.
  apply alter_ext. intros [x y z] _; simpl. by rewrite !Nat.add_0_r.
Qed.

Lemma add_lines_bump l h : add_lines l h = bump l 0 1 0 h.
Proof.
  apply alter_ext. intros [x y z] _; simpl. by rewrite !Nat.add_0_r.
Qed.

Lemma add_matches_bump l h : add_matches l h = bump l 0 0 1 h.
Proof.
  apply alter_ext. intros [x y z] _; simpl. by rewrite !Nat.add_0_r.
Qed.

Lemma lookup_bump l a b c h s :
  h !! l = Some s ->
  bump l a b c h !! l =
    Some {| SearchStats.files := SearchStats.files s + a;
            SearchStats.lines := SearchStats.lines s + b;
            SearchStats.matches := SearchStats.matches s + c |}.
Proof. intros Hl. unfold bump. by rewrite lookup_alter_eq, Hl. Qed.

Lemma lookup_bump_ne l l' a b c h : l <> l' -> bump l a b c h !! l' = h !! l'.
Proof. intros Hne. unfold bump. by rewrite lookup_alter_ne. Qed.

Lemma scan_rows_spec query l f rows h o h' :
  scan_rows query l f rows h = (o, h') ->
  match o with
  | None => h' = bump l 0 (length rows) 0 h /\ hits query f rows = []
  | Some (r, rows') =>
      exists dl, h' = bump l 0 dl 1 h /\ dl + length rows' = length rows /\
                 hits query f rows = r :: hits query f rows'
  end.
Proof.
  revert h; induction rows as [|r rows IH]; intros h; simpl.
  - intros [= <- <-]. by rewrite bump_zero.
  - unfold hits; simpl. fold (matchesb query r).
    destruct (matchesb query r) eqn:Hm.
    + intros [= <- <-]. exists 1. rewrite add_lines_bump, add_matches_bump, bump_bump.
      done.
    + intros Hs. apply IH in Hs. rewrite add_lines_bump in Hs.
      destruct o as [[r' rows']|].
      * destruct Hs as (dl & -> & Hdl & Hh). exists (S dl).
        rewrite bump_bump. split; [done|]. split; [lia | done].
      * destruct Hs as [-> Hh]. by rewrite bump_bump.
Qed.

Lemma scan_files_spec query l files h :
  resumes l (length files) (total_rows files) (hits_files query files) h
          (scan_files query l files h).
Proof.
  revert h; induction files as [|f files IH]; intros h; simpl.
  - exists 0, 0. simpl. by rewrite bump_zero.
  - destruct (scan_rows query l f (parse_log_file (LogFile.filename f))
                (add_files l h)) as [[[r rows']|] h1] eqn:Hs;
      apply scan_rows_spec in Hs; rewrite add_files_bump in Hs.
    + destruct Hs as (dl & -> & Hdl & Hh). exists 1, dl. simpl.
      rewrite bump_bump, Hh. unfold total_rows in *; simpl.
      repeat split; try done. lia.
    + destruct Hs as [-> Hh].
      set (n := length (parse_log_file (LogFile.filename f))).
      set (h1 := bump l 0 n 0 (bump l 1 0 0 h)).
      assert (Hb : forall df dl dm,
                 bump l df dl dm h1 = bump l (S df) (n + dl) dm h).
      { intros. unfold h1. by rewrite !bump_bump. }
      clearbody h1.
      destruct (IH h1) as (df & dl & Hst & Hdf & Hdl & Htodo & Hw & Hex).
      exists (S df), (n + dl).
      rewrite Hst, Hb, Hh. unfold total_rows in *; simpl. fold n.
      repeat split; try done; lia.
Qed.

Lemma gen_next_unstarted query stats where_ logfile_pattern h :
  resumes (started_with stats h).1
          (length (files_of where_ logfile_pattern))
          (total_rows (files_of where_ logfile_pattern))
          (hits_files (Text.lower query) (files_of where_ logfile_pattern))
          (started_with stats h).2
          (gen_next (Unstarted query stats where_ logfile_pattern) h).
Proof. simpl. destruct stats as [l|]; apply scan_files_spec. Qed.

Lemma gen_next_started g l h :
  writes_to l g ->
  resumes l (files_left g) (rows_left g) (pending g) h (gen_next g h).
Proof.
  destruct g as [| query l' f rows files |]; simpl; [done | intros -> | intros _].
  - destruct (scan_rows query l f rows h) as [[[r rows']|] h1] eqn:Hs;
      apply scan_rows_spec in Hs.
    + destruct Hs as (dl & -> & Hdl & Hh). exists 0, dl. simpl.
      rewrite Hh. repeat split; try done. lia.
    + destruct Hs as [-> Hh].
      set (h1 := bump l 0 (length rows) 0 h).
      assert (Hb : forall df dl dm,
                 bump l df dl dm h1 = bump l df (length rows + dl) dm h).
      { intros. unfold h1. by rewrite bump_bump. }
      clearbody h1.
      destruct (scan_files_spec query l files h1)
        as (df & dl & Hst & Hdf & Hdl & Htodo & Hw & Hex).
      exists df, (length rows + dl). rewrite Hst, Hb, Hh. simpl.
      repeat split; try done; lia.
  - exists 0, 0. simpl. by rewrite bump_zero.
Qed.

Lemma gen_take_started n g l h :
  writes_to l g ->
  resumes_many n l g h (gen_take n g h).
Proof.
  revert g h; induction n as [|n IH]; intros g h Hw; simpl.
  - exists 0, 0. simpl. rewrite bump_zero. repeat split; try done. lia.
  - destruct (gen_next_started g l h Hw)
      as (df & dl & Hst & Hdf & Hdl & Htodo & Hw1 & Hex).
    destruct (gen_next g h) as [[[r|] g1] h1]; simpl in *.
    + destruct (IH g1 h1 Hw1)
        as (df' & dl' & Hst' & Hdf' & Hdl' & Htodo' & Hw' & Hle' & Hex').
      destruct (gen_take n g1 h1) as [[rs g2] h2]; simpl in *.
      exists (df + df'), (dl + dl'). rewrite Hst', Hst, bump_bump, Htodo, Htodo'.
      simpl. repeat split; try done; try lia. intros Hlt. apply Hex'. lia.
    + exists df, dl. rewrite (Hex eq_refl) in *. simpl in *.
      repeat split; try done. lia.
Qed.

Lemma gen_take_unstarted n query stats where_ logfile_pattern h :
  resumes_many (S n) (started_with stats h).1
               (Unstarted query stats where_ logfile_pattern)
               (started_with stats h).2
               (gen_take (S n) (Unstarted query stats where_ logfile_pattern) h).
Proof.
  destruct (gen_next_unstarted query stats where_ logfile_pattern h)
    as (df & dl & Hst & Hdf & Hdl & Htodo & Hw1 & Hex).
  set (l := (started_with stats h).1) in *.
  set (h0 := (started_with stats h).2) in *.
  cbn [gen_take].
  destruct (gen_next _ h) as [[[r|] g1] h1]; simpl in Hst, Hdf, Hdl, Htodo, Hw1, Hex.
  - destruct (gen_take_started n g1 l h1 Hw1)
      as (df' & dl' & Hst' & Hdf' & Hdl' & Htodo' & Hw' & Hle' & Hex').
    destruct (gen_take n g1 h1) as [[rs g2] h2]; simpl in *.
    exists (df + df'), (dl + dl'). simpl. fold (files_of where_ logfile_pattern).
    rewrite Hst', Hst, bump_bump, Htodo, Htodo'.
    simpl. repeat split; try done; try lia. intros Hlt. apply Hex'. lia.
  - exists df, dl. rewrite (Hex eq_refl) in *. simpl in *.
    fold (files_of where_ logfile_pattern).
    repeat split; try done. lia.
Qed.

Lemma hits_length query f rows : length (hits query f rows) <= length rows.
Proof.
  unfold hits. rewrite length_map.
  induction rows as [|r rows IH]; simpl; [done|].
  destruct (matchesb query r); simpl; lia.
Qed.

Lemma hits_files_length query files :
  length (hits_files query files) <= total_rows files.
Proof.
  induction files as [|f files IH]; simpl; [done|].
  rewrite length_app. unfold total_rows in *; simpl.
  pose proof (hits_length query f (parse_log_file (LogFile.filename f))). lia.
Qed.

Lemma pending_length g : length (pending g) <= rows_left g.
Proof.
  destruct g as [query stats w p | query l f rows files |]; simpl; try done.
  - apply hits_files_length.
  - rewrite length_app.
    pose proof (hits_length query f rows).
    pose proof (hits_files_length query files). lia.
Qed.

(** A prefix of the run is a prefix of the results to come. *)
Lemma resumes_many_take n l g h out :
  resumes_many n l g h out -> out.1.1 = take n (pending g).
Proof.
  intros (df & dl & _ & _ & _ & Htodo & _ & Hle & Hex). rewrite Htodo.
  destruct (decide (length out.1.1 < n)) as [Hlt|Hge].
  - rewrite (Hex Hlt). simpl. rewrite app_nil_r, take_ge; [done | lia].
  - rewrite take_app_length'; [done | lia].
Qed.

(** A run long enough exhausts the generator and yields all of them. *)
Lemma resumes_many_all n l g h out :
  resumes_many n l g h out -> rows_left g < n ->
  out = (pending g, Exhausted,
         bump l (files_left g) (rows_left g) (length (pending g)) h).
Proof.
  intros (df & dl & Hst & Hdf & Hdl & Htodo & _ & Hle & Hex) Hn.
  pose proof (pending_length g) as Hp.
  destruct out as [[rs g'] h']; simpl in *.
  assert (length rs <= length (pending g)) as Hrs.
  { rewrite Htodo, length_app. lia. }
  rewrite Hex in * by lia. simpl in *. rewrite app_nil_r in Htodo.
  rewrite Nat.add_0_r in Hdf, Hdl. by rewrite Hst, Hdf, Hdl, Htodo.
Qed.

(** [list(search_irc_logs(...))], in one piece. *)
Lemma gen_list_search query stats where_ logfile_pattern h :
  gen_list (search_irc_logs query stats where_ logfile_pattern) h =
    (hits_files (Text.lower query) (files_of where_ logfile_pattern),
     Exhausted,
     bump (started_with stats h).1
          (length (files_of where_ logfile_pattern))
          (total_rows (files_of where_ logfile_pattern))
          (length (hits_files (Text.lower query) (files_of where_ logfile_pattern)))
          (started_with stats h).2).
Proof.
  unfold gen_list, search_irc_logs.
  apply (resumes_many_all _ _ _ _ _ (gen_take_unstarted _ _ _ _ _ _)).
  simpl. lia.
Qed.

Lemma gen_take_search n query stats where_ logfile_pattern h :
  (gen_take n (search_irc_logs query stats where_ logfile_pattern) h).1.1 =
    take n (hits_files (Text.lower query) (files_of where_ logfile_pattern)).
Proof.
  destruct n as [|n]; [done|]. unfold search_irc_logs.
  apply (resumes_many_take _ _ _ _ _ (gen_take_unstarted _ _ _ _ _ _)).
Qed.




Lemma hits_all f rows : hits "" f rows = map (make_result f) rows.
Proof.
  unfold hits. f_equal. induction rows as [|r rows IH]; simpl; [done|].
  unfold matchesb at 1. rewrite TextFacts.str_in_empty. by rewrite IH.
Qed.


(** C10: the results do not depend on the stats argument: with no
    stats object, or with any object of any store, every prefix of the run
    and the whole run yield the same results. *)
Theorem results_independent_of_stats query where_ logfile_pattern
        (l : ref) (h h' : store) :
  (forall n,
     (gen_take n (search_irc_logs query None where_ logfile_pattern) h).1.1 =
     (gen_take n (search_irc_logs query (Some l) where_ logfile_pattern) h').1.1) /\
  (gen_list (search_irc_logs query None where_ logfile_pattern) h).1.1 =
  (gen_list (search_irc_logs query (Some l) where_ logfile_pattern) h').1.1.
Proof.
  split.
  - intros n. by rewrite !gen_take_search.
  - by rewrite !gen_list_search.
Qed.

Lemma total_rows_rev files : total_rows (rev files) = total_rows files.
Proof.
  unfold total_rows. induction files as [|f files IH]; simpl; [done|].
  rewrite sum_list_with_app, IH. simpl. lia.
Qed.

(** C4: for a search given a fresh stats object and run to exhaustion,
    matches <= lines, lines is the number of rows of all files of the
    index, files is the number of files of the index; and after any
    number of resumptions matches is the number of results yielded so
    far. *)
Theorem stats_count_the_search query where_ logfile_pattern (l : ref) (h : store) :
  h !! l = Some SearchStats.new ->
  let g := search_irc_logs query (Some l) where_ logfile_pattern in
  let corpus := find_log_files (or_default where_ DEFAULT_LOGFILE_PATH)
                  (or_default logfile_pattern DEFAULT_LOGFILE_PATTERN) in
  (gen_list g h).1.2 = Exhausted /\
  (exists s, (gen_list g h).2 !! l = Some s /\
             SearchStats.matches s <= SearchStats.lines s /\
             SearchStats.lines s =
               sum_list_with (fun f => length (parse_log_file (LogFile.filename f)))
                             corpus /\
             SearchStats.files s = length corpus /\
             SearchStats.matches s = length (gen_list g h).1.1) /\
  (forall n, exists s, (gen_take n g h).2 !! l = Some s /\
                       SearchStats.matches s = length (gen_take n g h).1.1).
Proof.
  intros Hl g corpus. unfold g. rewrite gen_list_search. simpl.
  split; [done|]. split.
  - eexists. split; [by apply lookup_bump|]. simpl.
    unfold files_of. fold corpus. rewrite total_rows_rev, length_rev.
    repeat split; try done.
    rewrite <- (total_rows_rev corpus). apply hits_files_length.
  - intros [|n]; [by exists SearchStats.new|].
    destruct (gen_take_unstarted n query (Some l) where_ logfile_pattern h)
      as (df & dl & Hst & _). unfold search_irc_logs.
    change (started_with (Some l) h) with (l, h) in Hst. cbn [fst snd] in Hst.
    rewrite Hst. eexists. split; [by apply lookup_bump|]. done.
Qed.







End SearchFacts.

(** ** The search over the index of log files *)












(** ** The search, run on the small corpus *)

Example search_hello_sorted :
  (gen_list (logs := Sample.sorted_logs)
     (search_irc_logs "HeLLo" (Some 0) None None) Sample.one_stats).1.1
  = [make_result Sample.day3 ("08:00", Comment "carol" "well, HELLO there");
     make_result Sample.day2 ("09:00", Comment "bob" "hello again");
     make_result Sample.day1 ("10:00", Comment "alice" "Hello World")].
Proof. reflexivity. Qed.

Example search_hello_stats :
  (gen_list (logs := Sample.sorted_logs)
     (search_irc_logs "HeLLo" (Some 0) None None) Sample.one_stats).2 !! 0
  = Some {| SearchStats.files := 3; SearchStats.lines := 6; SearchStats.matches := 3 |}.
Proof. reflexivity. Qed.

Example search_nick_change_text_only :
  (gen_list (logs := Sample.sorted_logs)
     (search_irc_logs "known as" None None None) ∅).1.1
  = [make_result Sample.day1
       ("10:01", NickChange "alice is now known as al" "alice" "al")].
Proof. reflexivity. Qed.



Example listed_logs_walk :
  map LogFile.filename (files_of (logs := Sample.listed_logs) None None)
  = ["logs/chan.2020-01-03.log"; "logs/chan.2020-01-02.log";
     "logs/chan.2020-01-01.log"].
Proof. reflexivity. Qed.


Lemma stats_count_the_search_witness :
  Sample.one_stats !! 0 = Some SearchStats.new /\
  forall n, exists s,
    (gen_take (logs := Sample.sorted_logs) n
       (search_irc_logs "hello" (Some 0) None None) Sample.one_stats).2 !! 0 = Some s /\
    SearchStats.matches s =
      length (gen_take (logs := Sample.sorted_logs) n
                (search_irc_logs "hello" (Some 0) None None) Sample.one_stats).1.1.
Proof.
  split; [reflexivity|].
  apply (stats_count_the_search (logs := Sample.sorted_logs) "hello" None None 0
           Sample.one_stats).
  reflexivity.
Defined.


(** ** The presenter *)

Section PresenterFacts.
Context {logs : LogStore} {renderer : Renderer}.
Import Text.

Lemma for_results_take n g h fr :
  for_results n g h fr =
    (fold_left loop_body (gen_take n g h).1.1 fr, (gen_take n g h).2).
Proof.
  revert g h fr; induction n as [|n IH]; intros g h fr; simpl; [done|].
  destruct (gen_next g h) as [[[r|] g1] h1]; simpl; [|done].
  rewrite IH. by destruct (gen_take n g1 h1) as [[rs g2] h2].
Qed.

Lemma print_html_is_call c r : is_call (print_html c r).1 = true.
Proof.
  unfold print_html. destruct (SearchResult.event r); simpl; try done.
  by destruct (colour_of c nick).
Qed.

Lemma loop_body_written fr r :
  exists marks,
    written (loop_body fr r) = written fr ++ marks ++ [(print_html (formatter fr) r).1] /\
    List.filter is_call marks = [] /\
    formatter (loop_body fr r) = (print_html (formatter fr) r).2.
Proof.
  unfold loop_body. destruct (print_html (formatter fr) r) as [call c'] eqn:Hp.
  simpl. eexists. split; [f_equal; apply app_assoc|]. split; [|done].
  rewrite List.filter_app.
  destruct (bool_decide _); simpl;
    destruct (prev_result fr), (date fr); done.
Qed.

(** The calls that reach the renderer, and the colourizer each one is
    made with, do not depend on the dates of the results. *)
Lemma loop_calls rs fr :
  List.filter is_call (written (fold_left loop_body rs fr)) =
    List.filter is_call (written fr) ++ render_all (formatter fr) rs /\
  formatter (fold_left loop_body rs fr) = final_formatter (formatter fr) rs.
Proof.
  revert fr; induction rs as [|r rs IH]; intros fr; simpl.
  - by rewrite app_nil_r.
  - destruct (loop_body_written fr r) as (marks & Hw & Hm & Hf).
    destruct (IH (loop_body fr r)) as [IHw IHf]. rewrite IHw, IHf, Hw, Hf.
    split; [|done]. rewrite !List.filter_app, Hm. simpl.
    rewrite print_html_is_call. by rewrite <- app_assoc.
Qed.



(** [print_search_results] in one piece: the loop folded over the
    results of the search, and the counters the search leaves. *)
Lemma print_search_results_fold total_time query where_ logfile_pattern :
  let rs := hits_files (lower query) (files_of where_ logfile_pattern) in
  let fr := fold_left loop_body rs
              {| date := None; prev_result := None;
                 formatter := SearchResultFormatter;
                 written := preamble query |} in
  let stats := {| SearchStats.files := length (files_of where_ logfile_pattern);
                  SearchStats.lines := total_rows (files_of where_ logfile_pattern);
                  SearchStats.matches := length rs |} in
  print_search_results total_time query where_ logfile_pattern =
    (written fr ++ closing fr ++ [Print (stats_line stats total_time); Print FOOTER],
     formatter fr).
Proof.
  intros rs fr stats. unfold print_search_results.
  rewrite for_results_take.
  change (gen_take (S (rows_left ?g)) ?g ?h) with (gen_list g h).
  rewrite gen_list_search. cbn [fst snd started_with].
  erewrite lookup_bump by apply lookup_insert_eq. simpl.
  fold rs. fold fr. unfold closing. by rewrite <- !app_assoc.
Qed.




(** C5 (amended): one colourizer is made when the formatter is made and
    is handed from each result to the next, through every change of
    date: the renderer calls of the page are those of [render_all]. *)
Theorem colours_persist_across_dates total_time query where_ logfile_pattern :
  let rs := (gen_list (search_irc_logs query None where_ logfile_pattern) ∅).1.1 in
  List.filter is_call (print_search_results total_time query where_ logfile_pattern).1
    = render_all NickColourizer rs /\
  (print_search_results total_time query where_ logfile_pattern).2
    = final_formatter NickColourizer rs.
Proof.
  intros rs. unfold rs. rewrite print_search_results_fold, gen_list_search.
  cbn [fst snd].
  destruct (loop_calls (hits_files (lower query) (files_of where_ logfile_pattern))
              {| date := None; prev_result := None;
                 formatter := SearchResultFormatter;
                 written := preamble query |}) as [Hw Hf].
  split; [|done]. rewrite !List.filter_app, Hw. simpl.
  rewrite app_nil_r. unfold closing.
  destruct (prev_result _), (date _); simpl; by rewrite ?app_nil_r.
Qed.

End PresenterFacts.

(** ** The handlers *)

Section HandlerFacts.
Context {logs : LogStore} {renderer : Renderer} {site : Site}.

Lemma server_get_path e :
  irclogserver.get_path e =
    if has_separator (inbound_path e) then None
    else Some (if String.eqb (inbound_path e) "" then "index.html"
               else inbound_path e).
Proof. reflexivity. Qed.

Lemma search_get_path e : irclogsearch.get_path e = irclogserver.get_path e.
Proof. reflexivity. Qed.

(** [irclogserver.application] turns a path with a separator away
    before any file is opened, as plain text. *)
Lemma application_rejects_separator e :
  has_separator (inbound_path e) = true ->
  irclogserver.application e = (Returned (not_found "text/plain"), []).
Proof.
  intros Hs. unfold irclogserver.application.
  by rewrite server_get_path, Hs.
Qed.

(** C3: [irclogsearch.wsgi] turns every path with a separator away with
    [404 Not Found] and opens no file, as [irclogserver.application]
    does; but it leaves the content type at that of a page, text/html;
    charset=UTF-8, where the claim and [application] say text/plain. *)
Theorem wsgi_rejects_separator e :
  has_separator (inbound_path e) = true ->
  irclogsearch.wsgi e = (Returned (not_found "text/html; charset=UTF-8"), []).
Proof.
  intros Hs. unfold irclogsearch.wsgi.
  by rewrite search_get_path, server_get_path, Hs.
Qed.

Lemma endswith_exclusive p a b :
  String.length a = String.length b -> a <> b ->
  Text.endswith p a = true -> Text.endswith p b = false.
Proof.
  unfold Text.endswith. intros Hl Hne [_ Ha%String.eqb_eq]%andb_true_iff.
  rewrite <- Hl, Ha. apply andb_false_iff. right. by apply String.eqb_neq.
Qed.

(** C6 (amended): a path without separator, other than [search] and
    [irclog.css], that names a readable file under the base directory is
    answered [200 Ok] by both handlers, with a content type chosen by the
    end of the name: text/css for .css, text/plain for .log and .txt
    (with charset=UTF-8 from [application]), and text/html;
    charset=UTF-8 for any other; [application] sends the lines of a
    .log or .txt file decoded and encoded again as UTF-8, and the bytes
    of any other file as they are. *)
Theorem existing_file_is_served e path content :
  irclogserver.get_path e = Some path ->
  path <> "search" -> path <> "irclog.css" ->
  read_file (path_join (base_dir e) path) = Read content ->
  irclogserver.application e =
    (Returned {| status := "200 Ok";
                 headers := [("Content-Type",
                              served_type "text/plain; charset=UTF-8" path)];
                 body := if Text.endswith path ".log" || Text.endswith path ".txt"
                         then map (fun line => encode_utf8 (decode line))
                                  (splitlines_from [] content)
                         else [content] |},
     [Opened (path_join (base_dir e) path)]) /\
  exists result,
    irclogsearch.wsgi e =
      (Returned {| status := "200 Ok";
                   headers := [("Content-Type", served_type "text/plain" path)];
                   body := result |},
       [Opened (path_join (base_dir e) path)]).
Proof.
  intros Hp Hs%String.eqb_neq Hc%String.eqb_neq Hr. split.
  - unfold irclogserver.application. fold (base_dir e).
    rewrite Hp, Hs, Hc, Hr. unfold served_type.
    destruct (Text.endswith path ".css") eqn:Hcss.
    + rewrite (endswith_exclusive path ".css" ".log"),
        (endswith_exclusive path ".css" ".txt"); done.
    + by destruct (Text.endswith path ".log" || Text.endswith path ".txt").
  - unfold irclogsearch.wsgi. fold (base_dir e).
    rewrite search_get_path, Hp, Hs, Hc, Hr. unfold served_type.
    exists [content].
    destruct (Text.endswith path ".css") eqn:Hcss.
    + rewrite (endswith_exclusive path ".css" ".log"),
        (endswith_exclusive path ".css" ".txt"); done.
    + by destruct (Text.endswith path ".log" || Text.endswith path ".txt").
Qed.

(** C7: an empty inbound path is handled as [index.html] is, and when
    [index.html] cannot be read under the base directory the answer is
    [302 Found] with [Location: /search] and a plain-text body. *)
Theorem empty_path_is_index e :
  inbound_path e = "" ->
  irclogserver.get_path e = Some "index.html" /\
  irclogserver.application e = irclogserver.application (with_path e "/index.html") /\
  (read_file (path_join (base_dir e) "index.html") = Fails IOError ->
   irclogserver.application e =
     (Returned {| status := "302 Found";
                  headers := [("Content-Type", "text/plain"); ("Location", "/search")];
                  body := ["Try /search"] |},
      [Opened (path_join (base_dir e) "index.html")])).
Proof.
  intros He.
  assert (irclogserver.get_path e = Some "index.html") as Hp.
  { rewrite server_get_path, He. reflexivity. }
  split; [done|]. split.
  - unfold irclogserver.application. rewrite Hp. reflexivity.
  - intros Hr. unfold irclogserver.application. fold (base_dir e).
    rewrite Hp. simpl. by rewrite Hr.
Qed.

(** A page asked for by the name of its log and [.html] is rendered
    from the log when the log can be read: [200 Ok], text/html. *)
Lemma application_renders_log e path log :
  irclogserver.get_path e = Some path ->
  path <> "search" -> path <> "irclog.css" -> path <> "index.html" ->
  Text.endswith path ".html" = true ->
  read_file (path_join (base_dir e) path) = Fails IOError ->
  read_file (path_join (base_dir e) (Text.drop_last 5 path)) = Read log ->
  (irclogserver.application e).1 =
    Returned {| status := "200 Ok";
                headers := [("Content-Type", "text/html; charset=UTF-8")];
                body := [convert_irc_log log (Text.drop_last 5 path)] |}.
Proof.
  intros Hp Hs%String.eqb_neq Hc%String.eqb_neq Hi%String.eqb_neq He Hr Hl.
  unfold irclogserver.application. fold (base_dir e).
  by rewrite Hp, Hs, Hc, Hr, Hi, He, Hl.
Qed.

(** C9: when neither the page nor the log it is named after can be
    read, the second [open] of [irclogserver.application] raises [IOError]
    and nothing catches it: the handler does not answer [404 Not Found]. *)
Theorem application_raises_on_missing_log e path :
  irclogserver.get_path e = Some path ->
  path <> "search" -> path <> "irclog.css" -> path <> "index.html" ->
  Text.endswith path ".html" = true ->
  read_file (path_join (base_dir e) path) = Fails IOError ->
  read_file (path_join (base_dir e) (Text.drop_last 5 path)) = Fails IOError ->
  (irclogserver.application e).1 = Raised IOError.
Proof.
  intros Hp Hs%String.eqb_neq Hc%String.eqb_neq Hi%String.eqb_neq He Hr Hl.
  unfold irclogserver.application. fold (base_dir e).
  by rewrite Hp, Hs, Hc, Hr, Hi, He, Hl.
Qed.

End HandlerFacts.

(** ** The presenter and the handlers, run *)

Example page_without_results :
  (print_search_results (logs := Sample.sorted_logs) (renderer := SampleSite.renderer)
     (1 # 4) "zebra" None None).1
  = preamble (renderer := SampleSite.renderer) "zebra" ++
    [Print "<p>0 matches in 3 log files with 6 lines (0.2 seconds).</p>";
     Print (FOOTER (renderer := SampleSite.renderer))].
Proof. vm_compute. reflexivity. Qed.

Example format_1f_examples :
  format_1f (3 # 8) = "0.4"%string /\ format_1f (1 # 4) = "0.2"%string /\
  format_1f (3 # 4) = "0.8"%string /\ format_1f (395 # 32) = "12.3"%string /\
  format_1f (-1 # 32) = "-0.0"%string /\ format_1f 0 = "0.0"%string.
Proof. repeat split. Qed.


(** C5, as stated, fails: the comment of 2020-01-02 is rendered in the
    second colour, after the colour given on 2020-01-03; with a colour map
    of its own that date group would start at the first colour. *)
Lemma colours_not_reset_counterexample :
  let rs := (gen_list (logs := Sample.sorted_logs)
               (search_irc_logs "hello" None None None) ∅).1.1 in
  let page := (print_search_results (logs := Sample.sorted_logs)
                 (renderer := SampleSite.renderer) (7 # 20) "hello" None None).1 in
  List.filter is_call page =
    [Nicktext "08:00" "carol" "well, HELLO there" "colour1" "chan.2020-01-03.log.html";
     Nicktext "09:00" "bob" "hello again" "colour2" "chan.2020-01-02.log.html";
     Nicktext "10:00" "alice" "Hello World" "colour3" "chan.2020-01-01.log.html"] /\
  render_reset (renderer := SampleSite.renderer) None NickColourizer rs =
    [Nicktext "08:00" "carol" "well, HELLO there" "colour1" "chan.2020-01-03.log.html";
     Nicktext "09:00" "bob" "hello again" "colour1" "chan.2020-01-02.log.html";
     Nicktext "10:00" "alice" "Hello World" "colour1" "chan.2020-01-01.log.html"] /\
  List.filter is_call page <> render_reset (renderer := SampleSite.renderer) None NickColourizer rs.
Proof.
  split; [vm_compute; reflexivity|]. split; [vm_compute; reflexivity|].
  vm_compute. discriminate.
Qed.

Lemma wsgi_rejects_separator_witness :
  has_separator (inbound_path (SampleSite.request "/a/b")) = true /\
  irclogsearch.wsgi (logs := Sample.sorted_logs) (renderer := SampleSite.renderer)
    (site := SampleSite.site) (SampleSite.request "/a/b")
  = (Returned {| status := "404 Not Found";
                 headers := [("Content-Type", "text/html; charset=UTF-8")];
                 body := ["Not found"] |}, []).
Proof.
  split; [reflexivity|].
  apply (wsgi_rejects_separator (logs := Sample.sorted_logs)
           (renderer := SampleSite.renderer) (site := SampleSite.site)
           (SampleSite.request "/a/b")).
  reflexivity.
Defined.

Example application_rejects_as_plain :
  irclogserver.application (logs := Sample.sorted_logs) (renderer := SampleSite.renderer)
    (site := SampleSite.site) (SampleSite.request "/a/b")
  = (Returned {| status := "404 Not Found";
                 headers := [("Content-Type", "text/plain")];
                 body := ["Not found"] |}, []) /\
  irclogserver.application (logs := Sample.sorted_logs) (renderer := SampleSite.renderer)
    (site := SampleSite.site) (SampleSite.request "/..\passwd")
  = (Returned {| status := "404 Not Found";
                 headers := [("Content-Type", "text/plain")];
                 body := ["Not found"] |}, []).
Proof. split; reflexivity. Qed.

(** C6, as stated, fails: a file with none of the known endings is sent
    as text/html; charset=UTF-8 by both handlers, not as an octet stream;
    and a log is sent as text/plain; charset=UTF-8 by [application]. *)
Lemma other_file_counterexample :
  irclogserver.application (logs := Sample.sorted_logs) (renderer := SampleSite.renderer)
    (site := SampleSite.site) (SampleSite.request "/notes.bin")
  = (Returned {| status := "200 Ok";
                 headers := [("Content-Type", "text/html; charset=UTF-8")];
                 body := ["0123"] |}, [Opened "/srv/logs/notes.bin"]) /\
  irclogsearch.wsgi (logs := Sample.sorted_logs) (renderer := SampleSite.renderer)
    (site := SampleSite.site) (SampleSite.request "/notes.bin")
  = (Returned {| status := "200 Ok";
                 headers := [("Content-Type", "text/html; charset=UTF-8")];
                 body := ["0123"] |}, [Opened "/srv/logs/notes.bin"]) /\
  (irclogserver.application (logs := Sample.sorted_logs) (renderer := SampleSite.renderer)
     (site := SampleSite.site) (SampleSite.request "/notes.bin")).1
  <> Returned {| status := "200 Ok";
                 headers := [("Content-Type", "application/octet-stream")];
                 body := ["0123"] |} /\
  (irclogserver.application (logs := Sample.sorted_logs) (renderer := SampleSite.renderer)
     (site := SampleSite.site) (SampleSite.request "/chan.2020-01-01.log")).1
  <> Returned {| status := "200 Ok";
                 headers := [("Content-Type", "text/plain")];
                 body := [("10:00 <alice> Hello World" ++ nl)%string;
                          "10:02 * carol has joined"] |}.
Proof.
  split; [reflexivity|]. split; [reflexivity|]. split; vm_compute; discriminate.
Qed.

Lemma existing_file_is_served_witness :
  irclogserver.application (logs := Sample.sorted_logs) (renderer := SampleSite.renderer)
    (site := SampleSite.site) (SampleSite.request "/chan.2020-01-01.log")
  = (Returned {| status := "200 Ok";
                 headers := [("Content-Type", "text/plain; charset=UTF-8")];
                 body := [("10:00 <alice> Hello World" ++ nl)%string;
                          "10:02 * carol has joined"] |},
     [Opened "/srv/logs/chan.2020-01-01.log"]).
Proof.
  apply (existing_file_is_served (logs := Sample.sorted_logs) (renderer := SampleSite.renderer)
           (site := SampleSite.site) (SampleSite.request "/chan.2020-01-01.log")
           "chan.2020-01-01.log"
           ("10:00 <alice> Hello World" ++ nl ++ "10:02 * carol has joined")%string).
  - reflexivity.
  - discriminate.
  - discriminate.
  - reflexivity.
Defined.

Lemma empty_path_is_index_witness :
  irclogserver.application (logs := Sample.sorted_logs) (renderer := SampleSite.renderer)
    (site := SampleSite.site) (SampleSite.request "/")
  = (Returned {| status := "302 Found";
                 headers := [("Content-Type", "text/plain"); ("Location", "/search")];
                 body := ["Try /search"] |},
     [Opened "/srv/logs/index.html"]).
Proof.
  apply (empty_path_is_index (logs := Sample.sorted_logs) (renderer := SampleSite.renderer)
           (site := SampleSite.site) (SampleSite.request "/")); reflexivity.
Defined.

Lemma application_raises_on_missing_log_witness :
  (irclogserver.application (logs := Sample.sorted_logs)
     (renderer := SampleSite.renderer) (site := SampleSite.site)
     (SampleSite.request "/missing.html")).1 = Raised IOError.
Proof.
  apply (application_raises_on_missing_log (logs := Sample.sorted_logs)
           (renderer := SampleSite.renderer) (site := SampleSite.site)
           (SampleSite.request "/missing.html") "missing.html");
    try reflexivity; discriminate.
Defined.

Example application_opens_both_names :
  irclogserver.application (logs := Sample.sorted_logs) (renderer := SampleSite.renderer)
    (site := SampleSite.site) (SampleSite.request "/missing.html")
  = (Raised IOError, [Opened "/srv/logs/missing.html"; Opened "/srv/logs/missing"]).
Proof. reflexivity. Qed.

Example application_renders_existing_log :
  (irclogserver.application (logs := Sample.sorted_logs) (renderer := SampleSite.renderer)
     (site := SampleSite.site) (SampleSite.request "/chan.2020-01-01.log.html")).1
  = Returned {| status := "200 Ok";
                headers := [("Content-Type", "text/html; charset=UTF-8")];
                body := [convert_irc_log (Site := SampleSite.site)
                           ("10:00 <alice> Hello World" ++ nl
                              ++ "10:02 * carol has joined")%string
                           "chan.2020-01-01.log"] |}.
Proof. reflexivity. Qed.

Example application_not_found_plain :
  irclogserver.application (logs := Sample.sorted_logs) (renderer := SampleSite.renderer)
    (site := SampleSite.site) (SampleSite.request "/missing.txt")
  = (Returned {| status := "404 Not Found";
                 headers := [("Content-Type", "text/plain")];
                 body := ["Not found"] |}, [Opened "/srv/logs/missing.txt"]).
Proof. reflexivity. Qed.

Example splitlines_examples :
  splitlines_from [] ("a" ++ nl ++ "b")%string = [("a" ++ nl)%string; "b"%string] /\
  splitlines_from [] "" = [] /\
  splitlines_from [] (nl ++ nl)%string = [nl; nl].
Proof. repeat split. Qed.


(** ** More on the search *)

Section SearchMore.
Context {logs : LogStore}.

Lemma advanced_refl l h : advanced l 0 h h.
Proof. exists 0, 0. rewrite bump_zero. split; [done | lia]. Qed.

Lemma advanced_trans l a b h h1 h2 :
  advanced l a h h1 -> advanced l b h1 h2 -> advanced l (a + b) h h2.
Proof.
  intros (df & dl & -> & Ha) (df' & dl' & -> & Hb).
  exists (df + df'), (dl + dl'). rewrite bump_bump. split; [done | lia].
Qed.

Lemma advanced_lookup l dm h h' s :
  advanced l dm h h' -> h !! l = Some s ->
  exists s', h' !! l = Some s' /\ counted_up dm s s'.
Proof.
  intros (df & dl & -> & Hd) Hl. eexists. split; [by apply lookup_bump|].
  unfold counted_up. simpl. lia.
Qed.

Lemma advanced_elsewhere l dm h h' l' :
  advanced l dm h h' -> l' <> l -> h' !! l' = h !! l'.
Proof. intros (df & dl & -> & _) Hne. by apply lookup_bump_ne. Qed.

Lemma scan_rows_advanced query l f rows h :
  advanced l (if (scan_rows query l f rows h).1 is Some _ then 1 else 0) h
           (scan_rows query l f rows h).2.
Proof.
  revert h; induction rows as [|r rows IH]; intros h; simpl.
  - apply advanced_refl.
  - destruct (Text.str_in query (Text.lower (flatten r.2))); simpl.
    + exists 0, 1. rewrite add_lines_bump, add_matches_bump, bump_bump.
      split; [done | lia].
    + apply (advanced_trans l 0 _ h (add_lines l h)); [|apply IH].
      exists 0, 1. rewrite add_lines_bump. split; [done | lia].
Qed.

Lemma scan_files_advanced query l files h :
  advanced l (length (option_list (scan_files query l files h).1.1)) h
           (scan_files query l files h).2.
Proof.
  revert h; induction files as [|f files IH]; intros h; simpl.
  - apply advanced_refl.
  - pose proof (scan_rows_advanced query l f (parse_log_file (LogFile.filename f))
                  (add_files l h)) as Hr.
    assert (advanced l 0 h (add_files l h)) as Hf.
    { exists 1, 0. rewrite add_files_bump. split; [done | lia]. }
    destruct (scan_rows query l f _ (add_files l h)) as [[[r rows']|] h1]; simpl in *.
    + by apply (advanced_trans l 0 1 h (add_files l h)).
    + apply (advanced_trans l 0 _ h h1); [|apply IH].
      by apply (advanced_trans l 0 0 h (add_files l h)).
Qed.

Lemma gen_next_advanced g l h :
  writes_to l g ->
  advanced l (length (option_list (gen_next g h).1.1)) h (gen_next g h).2.
Proof.
  destruct g as [| query l' f rows files |]; simpl; [done | intros -> | intros _].
  - pose proof (scan_rows_advanced query l f rows h) as Hr.
    destruct (scan_rows query l f rows h) as [[[r rows']|] h1]; simpl in *; [done|].
    apply (advanced_trans l 0 _ h h1); [done | apply scan_files_advanced].
  - apply advanced_refl.
Qed.

Lemma gen_take_advanced n g l h :
  writes_to l g ->
  advanced l (length (gen_take n g h).1.1) h (gen_take n g h).2.
Proof.
  revert g h; induction n as [|n IH]; intros g h Hw; simpl.
  - apply advanced_refl.
  - pose proof (gen_next_advanced g l h Hw) as Hn.
    destruct (gen_next_started g l h Hw) as (_ & _ & _ & _ & _ & _ & Hw1 & _).
    destruct (gen_next g h) as [[[r|] g1] h1]; simpl in *; [|done].
    pose proof (IH g1 h1 Hw1) as Ht.
    destruct (gen_take n g1 h1) as [[rs g2] h2]; simpl in *.
    by apply (advanced_trans l 1 _ h h1).
Qed.

Lemma gen_take_search_advanced n query stats where_ logfile_pattern h :
  advanced (started_with stats h).1
           (length (gen_take n (search_irc_logs query stats where_ logfile_pattern) h).1.1)
           (if n is O then h else (started_with stats h).2)
           (gen_take n (search_irc_logs query stats where_ logfile_pattern) h).2.
Proof.
  destruct n as [|n]; [apply advanced_refl|].
  destruct (gen_next_unstarted query stats where_ logfile_pattern h)
    as (_ & _ & _ & _ & _ & _ & Hw1 & _).
  set (l := (started_with stats h).1) in *.
  set (h0 := (started_with stats h).2) in *.
  assert (advanced l (length (option_list
            (gen_next (Unstarted query stats where_ logfile_pattern) h).1.1)) h0
            (gen_next (Unstarted query stats where_ logfile_pattern) h).2) as Hn.
  { unfold l, h0. simpl. destruct stats; apply scan_files_advanced. }
  unfold search_irc_logs. cbn [gen_take].
  destruct (gen_next _ h) as [[[r|] g1] h1]; simpl in Hn, Hw1; [|done].
  pose proof (gen_take_advanced n g1 l h1 Hw1) as Ht.
  destruct (gen_take n g1 h1) as [[rs g2] h2]; simpl in *.
  by apply (advanced_trans l 1 _ h0 h1).
Qed.

(** X1: the results come file by file, in the reverse of the order of
    [find_log_files], and within a file in the order of its rows, one for
    each row the lowered query occurs in; every shorter run yields a
    prefix of that sequence. *)
Theorem search_results_in_order query stats where_ logfile_pattern h :
  let all_results :=
    flat_map
      (fun f => map (make_result f)
                  (List.filter
                     (fun r => Text.str_in (Text.lower query) (Text.lower (flatten r.2)))
                     (parse_log_file (LogFile.filename f))))
      (rev (find_log_files (or_default where_ DEFAULT_LOGFILE_PATH)
              (or_default logfile_pattern DEFAULT_LOGFILE_PATTERN))) in
  (gen_list (search_irc_logs query stats where_ logfile_pattern) h).1 =
    (all_results, Exhausted) /\
  forall n, (gen_take n (search_irc_logs query stats where_ logfile_pattern) h).1.1 =
            take n all_results.
Proof.
  intros all_results. split.
  - by rewrite gen_list_search.
  - intros n. by rewrite gen_take_search.
Qed.

(** X2: the case of the letters of the query does not matter: two
    queries with the same lowered form give the same results and leave the
    same store, after any number of resumptions. *)
Theorem search_ignores_query_case query query' stats where_ logfile_pattern h :
  Text.lower query = Text.lower query' ->
  forall n,
    (gen_take n (search_irc_logs query stats where_ logfile_pattern) h).1.1 =
    (gen_take n (search_irc_logs query' stats where_ logfile_pattern) h).1.1 /\
    (gen_take n (search_irc_logs query stats where_ logfile_pattern) h).2 =
    (gen_take n (search_irc_logs query' stats where_ logfile_pattern) h).2.
Proof.
  intros Hq [|n]; [done|]. unfold search_irc_logs. cbn [gen_take gen_next].
  by rewrite Hq.
Qed.

Lemma or_default_again x d : or_default (Some (or_default x d)) d = or_default x d.
Proof. destruct x as [[|c s]|]; simpl; by destruct d. Qed.

Lemma gen_list_or_default query stats where_ logfile_pattern h :
  gen_list (search_irc_logs query stats where_ logfile_pattern) h =
  gen_list (search_irc_logs query stats
              (Some (or_default where_ DEFAULT_LOGFILE_PATH))
              (Some (or_default logfile_pattern DEFAULT_LOGFILE_PATTERN))) h.
Proof.
  unfold gen_list, search_irc_logs. cbn [rows_left gen_take gen_next].
  by rewrite !or_default_again.
Qed.

(** X3: a directory or a pattern that is missing or empty stands for the
    default one: the search is the same as with the defaults spelled
    out. *)
Theorem search_falls_back_to_defaults query stats h :
  gen_list (search_irc_logs query stats None None) h =
    gen_list (search_irc_logs query stats (Some DEFAULT_LOGFILE_PATH)
                (Some DEFAULT_LOGFILE_PATTERN)) h /\
  gen_list (search_irc_logs query stats (Some "") (Some "")) h =
    gen_list (search_irc_logs query stats (Some DEFAULT_LOGFILE_PATH)
                (Some DEFAULT_LOGFILE_PATTERN)) h.
Proof.
  split.
  - by rewrite (gen_list_or_default query stats None None).
  - by rewrite (gen_list_or_default query stats (Some "") (Some "")).
Qed.

Lemma misses_lower query r :
  misses query r -> Text.str_in (Text.lower query) (Text.lower (flatten r.2)) = false.
Proof.
  unfold misses. rewrite <- TextFacts.str_in_lower.
  by destruct (Text.str_in _ _).
Qed.

Lemma scan_rows_skip query l f pre rest h :
  Forall (misses query) pre ->
  scan_rows (Text.lower query) l f (pre ++ rest) h =
    scan_rows (Text.lower query) l f rest (bump l 0 (length pre) 0 h).
Proof.
  intros Hpre. revert h. induction Hpre as [|r pre Hr _ IH]; intros h; simpl.
  - by rewrite bump_zero.
  - rewrite (misses_lower _ _ Hr), IH, add_lines_bump, bump_bump. done.
Qed.

Lemma scan_rows_miss query l f rows h :
  Forall (misses query) rows ->
  scan_rows (Text.lower query) l f rows h = (None, bump l 0 (length rows) 0 h).
Proof.
  intros Hm. rewrite <- (app_nil_r rows) at 1. by rewrite scan_rows_skip.
Qed.

Lemma scan_files_skip query l skipped rest h :
  Forall (fun f => Forall (misses query) (parse_log_file (LogFile.filename f))) skipped ->
  scan_files (Text.lower query) l (skipped ++ rest) h =
    scan_files (Text.lower query) l rest
               (bump l (length skipped) (total_rows skipped) 0 h).
Proof.
  intros Hs. revert h. induction Hs as [|f skipped Hf _ IH]; intros h; simpl.
  - by rewrite bump_zero.
  - rewrite (scan_rows_miss _ _ _ _ _ Hf), IH, add_files_bump, !bump_bump.
    unfold total_rows. simpl. do 2 f_equal; lia.
Qed.

(** X4: the first [next] opens no file after the first one that holds a
    match and reads no row after the first matching row: the generator
    stops there, with the rest of that file and the later files still
    ahead, and the counters say as much. *)
Theorem first_result_stops_scanning query where_ logfile_pattern (l : ref) (h : store)
        skipped f rest pre r0 post :
  rev (find_log_files (or_default where_ DEFAULT_LOGFILE_PATH)
         (or_default logfile_pattern DEFAULT_LOGFILE_PATTERN)) = skipped ++ f :: rest ->
  Forall (fun f' => Forall (misses query) (parse_log_file (LogFile.filename f'))) skipped ->
  parse_log_file (LogFile.filename f) = pre ++ r0 :: post ->
  Forall (misses query) pre ->
  Text.contains_ci query (flatten r0.2) ->
  h !! l = Some SearchStats.new ->
  exists h',
    gen_next (search_irc_logs query (Some l) where_ logfile_pattern) h =
      (Some (make_result f r0), Suspended (Text.lower query) l f post rest, h') /\
    h' !! l = Some {| SearchStats.files := S (length skipped);
                      SearchStats.lines :=
                        sum_list_with
                          (fun f' => length (parse_log_file (LogFile.filename f')))
                          skipped + S (length pre);
                      SearchStats.matches := 1 |}.
Proof.
  intros Hwalk Hskip Hrows Hpre Hhit Hl.
  apply TextFacts.str_in_lower in Hhit.
  unfold search_irc_logs. cbn [gen_next]. rewrite Hwalk, scan_files_skip by done.
  cbn [scan_files]. rewrite Hrows, scan_rows_skip by done.
  cbn [scan_rows]. rewrite Hhit. eexists. split; [reflexivity|].
  rewrite add_lines_bump, add_matches_bump, add_files_bump, !bump_bump.
  erewrite lookup_bump by done. simpl. f_equal. f_equal; unfold total_rows; lia.
Qed.

(** X5: whenever the caller looks at the stats object it handed over,
    after any number of resumptions, no counter has gone down, the matches
    have grown by the number of results yielded so far and the lines by at
    least as much, the files by no more than there are files; and no other
    object of the store has changed. *)
Theorem counters_at_every_suspension n query where_ logfile_pattern
        (l : ref) (h : store) s :
  h !! l = Some s ->
  let out := gen_take n (search_irc_logs query (Some l) where_ logfile_pattern) h in
  (exists s', out.2 !! l = Some s' /\ counted_up (length out.1.1) s s' /\
              SearchStats.files s' <= SearchStats.files s +
                length (find_log_files (or_default where_ DEFAULT_LOGFILE_PATH)
                          (or_default logfile_pattern DEFAULT_LOGFILE_PATTERN))) /\
  (forall l', l' <> l -> out.2 !! l' = h !! l').
Proof.
  intros Hl out.
  pose proof (gen_take_search_advanced n query (Some l) where_ logfile_pattern h) as Ha.
  assert ((if n is O then h else (started_with (Some l) h).2) = h) as Hh
    by by destruct n.
  rewrite Hh in Ha. cbn [started_with fst] in Ha. fold out in Ha. split.
  - destruct (advanced_lookup _ _ _ _ _ Ha Hl) as (s' & Hs' & Hc).
    exists s'. split; [done|]. split; [done|].
    destruct n as [|n].
    + unfold out in Hs'. simpl in Hs'. rewrite Hl in Hs'. injection Hs' as <-. lia.
    + destruct (gen_take_unstarted n query (Some l) where_ logfile_pattern h)
        as (df & dl & Hst & Hdf & _).
      change (started_with (Some l) h) with (l, h) in Hst. cbn [fst snd] in Hst.
      unfold search_irc_logs in out. fold out in Hst, Hdf.
      rewrite Hst in Hs'. erewrite lookup_bump in Hs' by done.
      injection Hs' as <-. simpl in *. unfold files_of in Hdf.
      rewrite length_rev in Hdf. lia.
  - intros l' Hne. by eapply advanced_elsewhere.
Qed.

(** X6: the counters are added to, never set: a stats object that is
    used again keeps what it held, and a whole search adds the number of
    files, the number of their rows and the number of results. *)
Theorem stats_accumulate_on_reuse query where_ logfile_pattern (l : ref) (h : store) s :
  h !! l = Some s ->
  let out := gen_list (search_irc_logs query (Some l) where_ logfile_pattern) h in
  let corpus := find_log_files (or_default where_ DEFAULT_LOGFILE_PATH)
                  (or_default logfile_pattern DEFAULT_LOGFILE_PATTERN) in
  out.2 !! l =
    Some {| SearchStats.files := SearchStats.files s + length corpus;
            SearchStats.lines :=
              SearchStats.lines s +
              sum_list_with (fun f => length (parse_log_file (LogFile.filename f))) corpus;
            SearchStats.matches := SearchStats.matches s + length out.1.1 |}.
Proof.
  intros Hl out corpus. unfold out. rewrite gen_list_search. cbn [fst snd started_with].
  erewrite lookup_bump by done. unfold files_of. fold corpus.
  by rewrite length_rev, total_rows_rev.
Qed.

(** X7: a search that is given no stats object makes one of its own and
    changes no object the store already holds, however far it is run. *)
Theorem search_without_stats_keeps_store n query where_ logfile_pattern (h : store) :
  h ⊆ (gen_take n (search_irc_logs query None where_ logfile_pattern) h).2.
Proof.
  pose proof (gen_take_search_advanced n query None where_ logfile_pattern h) as Ha.
  destruct n as [|n]; [done|]. cbn [started_with fst snd] in Ha.
  apply map_subseteq_spec. intros l' x Hx.
  assert (l' <> fresh (dom h)) as Hne.
  { intros ->. apply (is_fresh (dom h)). apply elem_of_dom. by exists x. }
  rewrite (advanced_elsewhere _ _ _ _ l' Ha Hne). by rewrite lookup_insert_ne.
Qed.

End SearchMore.

(** ** More on the presenter *)

Section PresenterMore.
Context {logs : LogStore} {renderer : Renderer}.









Lemma render_all_length c rs : length (render_all c rs) = length rs.
Proof. revert c; induction rs as [|r rs IH]; intros c; simpl; [done | by rewrite IH]. Qed.

(** X9: a results page reports as many matches as it shows: its last
    line but one starts [<p>N matches in ], with [N], in decimal, the
    number of renderer calls written before that line. *)
Theorem page_reports_its_own_calls total_time query where_ logfile_pattern :
  exists front rest,
    (print_search_results total_time query where_ logfile_pattern).1 =
      front ++
      [Print ("<p>"
              ++ NilEmpty.string_of_uint
                   (Nat.to_uint (length (List.filter is_call front)))
              ++ " matches in " ++ rest)%string;
       Print FOOTER].
Proof.
  rewrite print_search_results_fold. cbn [fst].
  set (rs := hits_files _ _).
  set (fr := fold_left loop_body rs _).
  assert (length (List.filter is_call (written fr ++ closing fr)) = length rs) as Hn.
  { destruct (loop_calls rs {| date := None; prev_result := None;
                               formatter := SearchResultFormatter;
                               written := preamble query |}) as [Hw _].
    cbn [written formatter] in Hw. fold fr in Hw.
    rewrite List.filter_app, Hw, !length_app, render_all_length.
    assert (List.filter is_call (preamble query) = []) as -> by reflexivity.
    unfold closing. destruct (prev_result _), (date _); simpl; lia. }
  exists (written fr ++ closing fr). eexists.
  rewrite Hn, app_assoc. reflexivity.
Qed.

End PresenterMore.

(** ** More on the handlers *)

Section HandlerMore.
Context {logs : LogStore} {renderer : Renderer} {site : Site}.

Lemma char_in_take c n s :
  Text.char_in c (Text.take n s) = true -> Text.char_in c s = true.
Proof.
  unfold Text.char_in. revert n; induction s as [|a s IH]; intros [|n]; simpl; try done.
  destruct (Ascii.eqb c a); simpl; [done|]. apply IH.
Qed.

Lemma has_separator_drop_last n path :
  has_separator path = false -> has_separator (Text.drop_last n path) = false.
Proof.
  unfold has_separator, Text.drop_last. intros [H1 H2]%orb_false_iff.
  apply orb_false_iff. split; apply not_true_is_false; intros Hc%char_in_take; congruence.
Qed.

Lemma get_path_no_separator e path :
  irclogserver.get_path e = Some path -> has_separator path = false.
Proof.
  rewrite server_get_path. destruct (has_separator (inbound_path e)) eqn:Hs; [done|].
  intros [= <-]. by destruct (String.eqb (inbound_path e) "").
Qed.

(** X11: the files the handlers themselves open are named by the
    request alone.  Each is the style sheet of the package, or
    [os.path.join] of the base directory and one name without slash or
    backslash: the name [get_path] gives or, from [application], that name
    without its last five characters when it ends in [.html].  Nothing
    keeps such a path within the base directory ([..] is such a name).
    The logs are searched only for the path [search] with one value of
    [q], in the base directory and by the pattern of the request. *)
Theorem handlers_open_named_files e :
  (forall p, Opened p ∈ (irclogserver.application e).2 ->
     p = CSS_FILE \/
     exists path name,
       irclogserver.get_path e = Some path /\ joined e name p /\
       (name = path \/
        (Text.endswith path ".html" = true /\ name = Text.drop_last 5 path))) /\
  (forall p, Opened p ∈ (irclogsearch.wsgi e).2 ->
     p = CSS_FILE \/
     exists path, irclogsearch.get_path e = Some path /\ joined e path p) /\
  (forall where_ pattern,
     Searched where_ pattern ∈ (irclogserver.application e).2 \/
     Searched where_ pattern ∈ (irclogsearch.wsgi e).2 ->
     irclogserver.get_path e = Some "search" /\
     (exists value, form e = OneValue value) /\
     where_ = base_dir e /\
     pattern = or_default (IRCLOG_GLOB e) DEFAULT_LOGFILE_PATTERN).
Proof.
  split; [|split].
  - intros p. unfold irclogserver.application. fold (base_dir e).
    destruct (irclogserver.get_path e) as [path|] eqn:Hp; [|by intros ?%elem_of_nil].
    pose proof (get_path_no_separator e path Hp) as Hs.
    pose proof (has_separator_drop_last 5 path Hs) as Hs'.
    destruct (String.eqb path "search").
    { destruct (form e); simpl; intros Hin;
        repeat (apply elem_of_cons in Hin as [Hin|Hin]); try discriminate;
        by apply elem_of_nil in Hin. }
    destruct (String.eqb path "irclog.css").
    { assert (Opened p ∈ [Opened CSS_FILE] -> p = CSS_FILE) as Hcss.
      { intros [Hin|Hin%elem_of_nil]%elem_of_cons; [by injection Hin | done]. }
      destruct (read_file CSS_FILE) as [css|[]]; simpl; intros Hin; left; by apply Hcss. }
    assert (forall l, Opened p ∈ l ->
              l = [Opened (path_join (base_dir e) path)] \/
              (Text.endswith path ".html" = true /\
               l = [Opened (path_join (base_dir e) path);
                    Opened (path_join (base_dir e) (Text.drop_last 5 path))]) ->
              p = CSS_FILE \/
              exists path' name,
                Some path = Some path' /\ joined e name p /\
                (name = path' \/
                 (Text.endswith path' ".html" = true /\ name = Text.drop_last 5 path')))
      as Hopen.
    { intros l Hin [->|[He ->]]; right;
        repeat (apply elem_of_cons in Hin as [Hin|Hin]);
        try (by apply elem_of_nil in Hin); injection Hin as ->.
      - exists path, path. by repeat split; auto.
      - exists path, path. by repeat split; auto.
      - exists path, (Text.drop_last 5 path). by repeat split; auto. }
    destruct (read_file (path_join (base_dir e) path)) as [content|[]]; simpl;
      try (intros Hin; apply (Hopen _ Hin); by left).
    destruct (String.eqb path "index.html"); simpl;
      [intros Hin; apply (Hopen _ Hin); by left|].
    destruct (Text.endswith path ".html") eqn:He; simpl;
      [|intros Hin; apply (Hopen _ Hin); by left].
    destruct (read_file (path_join (base_dir e) (Text.drop_last 5 path)));
      simpl; intros Hin; apply (Hopen _ Hin); by right.
  - intros p. unfold irclogsearch.wsgi. fold (base_dir e). rewrite search_get_path.
    destruct (irclogserver.get_path e) as [path|] eqn:Hp; [|by intros ?%elem_of_nil].
    pose proof (get_path_no_separator e path Hp) as Hs.
    destruct (String.eqb path "search").
    { destruct (form e); simpl; intros Hin;
        repeat (apply elem_of_cons in Hin as [Hin|Hin]); try discriminate;
        by apply elem_of_nil in Hin. }
    destruct (String.eqb path "irclog.css").
    { assert (Opened p ∈ [Opened CSS_FILE] -> p = CSS_FILE) as Hcss.
      { intros [Hin|Hin%elem_of_nil]%elem_of_cons; [by injection Hin | done]. }
      destruct (read_file CSS_FILE) as [css|[]]; simpl; intros Hin; left; by apply Hcss. }
    assert (Opened p ∈ [Opened (path_join (base_dir e) path)] ->
            p = CSS_FILE \/ exists path', Some path = Some path' /\ joined e path' p)
      as Hopen.
    { intros [Hin|Hin%elem_of_nil]%elem_of_cons; [|done]. injection Hin as ->.
      right. exists path. by repeat split. }
    destruct (read_file (path_join (base_dir e) path)) as [content|[]]; simpl;
      try exact Hopen.
    by destruct (String.eqb path "index.html").
  - intros where_ pattern.
    assert (forall l,
              Searched where_ pattern ∈ l ->
              (forall p, Searched where_ pattern <> Opened p) ->
              Forall (fun a => exists p, a = Opened p) l -> False) as Hnone.
    { intros l Hin Hne Hall. rewrite Forall_forall in Hall.
      destruct (Hall _ Hin) as [p Hp]. by apply (Hne p). }
    assert (forall path,
              irclogserver.get_path e = Some path ->
              Searched where_ pattern ∈
                (if String.eqb path "search"
                 then (if form e is OneValue _
                       then [Searched (base_dir e)
                               (or_default (IRCLOG_GLOB e) DEFAULT_LOGFILE_PATTERN)]
                       else [])
                 else []) ->
              irclogserver.get_path e = Some "search" /\
              (exists value, form e = OneValue value) /\
              where_ = base_dir e /\
              pattern = or_default (IRCLOG_GLOB e) DEFAULT_LOGFILE_PATTERN) as Hsearch.
    { intros path Hp. destruct (String.eqb_spec path "search") as [->|];
        [|by intros ?%elem_of_nil].
      destruct (form e) eqn:Hf; try by intros ?%elem_of_nil.
      intros [Hin|Hin%elem_of_nil]%elem_of_cons; [|done].
      injection Hin as -> ->. split; [done|]. split; [by eexists | done]. }
    unfold irclogserver.application, irclogsearch.wsgi. fold (base_dir e).
    change (irclogsearch.get_path e) with (irclogserver.get_path e).
    destruct (irclogserver.get_path e) as [path|] eqn:Hp;
      [|by intros [?%elem_of_nil|?%elem_of_nil]].
    specialize (Hsearch path eq_refl).
    destruct (String.eqb path "search").
    { destruct (form e); simpl in *; intros [Hin|Hin]; by apply Hsearch. }
    intros [Hin|Hin]; exfalso; revert Hin;
      repeat case_match; simpl; intros Hin;
      repeat (apply elem_of_cons in Hin as [Hin|Hin]); try discriminate;
      by apply elem_of_nil in Hin.
Qed.

(** X13: every answer of [irclogserver.application] that is not [200 Ok]
    is plain text: either [404 Not Found] with the body [Not found], or
    [302 Found] to [/search], and that only for [index.html] when it cannot
    be read; an answer [200 Ok] has the content type as its only header. *)
Theorem application_failures_are_plain_text e r :
  (irclogserver.application e).1 = Returned r ->
  (status r = "200 Ok" /\ exists content_type, headers r = [("Content-Type", content_type)]) \/
  (status r = "404 Not Found" /\ headers r = [("Content-Type", "text/plain")] /\
   body r = ["Not found"]) \/
  (status r = "302 Found" /\
   headers r = [("Content-Type", "text/plain"); ("Location", "/search")] /\
   body r = ["Try /search"] /\
   irclogserver.get_path e = Some "index.html" /\
   read_file (path_join (base_dir e) "index.html") = Fails IOError).
Proof.
  unfold irclogserver.application, respond. fold (base_dir e).
  destruct (irclogserver.get_path e) as [path|].
  2:{ intros [= <-]. right. by left. }
  destruct (String.eqb_spec path "search").
  { destruct (search_page _ _ _ _); [|done].
    intros [= <-]. left. split; [done|]. by eexists. }
  destruct (String.eqb_spec path "irclog.css").
  { destruct (read_file CSS_FILE) as [css|[]]; try done;
      intros [= <-]; [left | right; left]; try done.
    split; [done|]. by eexists. }
  destruct (read_file (path_join (base_dir e) path)) as [content|ex] eqn:Hr.
  { repeat case_match; intros [= <-]; left; (split; [done|]); by eexists. }
  destruct ex; try done.
  destruct (String.eqb_spec path "index.html") as [->|].
  { intros [= <-]. right. right. done. }
  destruct (Text.endswith path ".html").
  - destruct (read_file (path_join (base_dir e) (Text.drop_last 5 path))); [|done].
    intros [= <-]. left. split; [done|]. by eexists.
  - intros [= <-]. right. by left.
Qed.

Lemma string_app_assoc (a b c : string) : ((a ++ b) ++ c = a ++ (b ++ c))%string.
Proof. induction a as [|x a IH]; simpl; [done | by rewrite IH]. Qed.

Lemma string_app_nil_r (a : string) : (a ++ "")%string = a.
Proof. induction a as [|x a IH]; simpl; [done | by rewrite IH]. Qed.

Lemma string_of_list_snoc l c :
  string_of_list_ascii (l ++ [c]) = (string_of_list_ascii l ++ String c "")%string.
Proof. induction l as [|x l IH]; simpl; [done | by rewrite IH]. Qed.

Lemma splitlines_from_cons cur c s :
  splitlines_from cur (String c s) =
    let line := string_of_list_ascii (rev cur) in
    if Ascii.eqb c "010" then
      (line ++ String c EmptyString)%string :: splitlines_from [] s
    else if Ascii.eqb c "013" then
      match s with
      | String c' s'' =>
          if Ascii.eqb c' "010" then
            (line ++ String c (String c' EmptyString))%string :: splitlines_from [] s''
          else (line ++ String c EmptyString)%string :: splitlines_from [] s
      | EmptyString => [(line ++ String c EmptyString)%string]
      end
    else splitlines_from (c :: cur) s.
Proof. reflexivity. Qed.

(** The lines [bytes.splitlines(True)] cuts a byte string into are the
    byte string again when joined. *)
Lemma splitlines_join_from s :
  (forall cur, bytes_join (splitlines_from cur s) =
                 (string_of_list_ascii (rev cur) ++ s)%string) /\
  (forall c cur, bytes_join (splitlines_from cur (String c s)) =
                   (string_of_list_ascii (rev cur) ++ String c s)%string).
Proof.
  induction s as [|a s [IH1 IH2]].
  - split.
    + intros [|x cur]; simpl; [done|]. by rewrite string_app_nil_r.
    + intros c cur. cbn [splitlines_from].
      destruct (Ascii.eqb c "010"); [|destruct (Ascii.eqb c "013")]; simpl;
        rewrite ?string_of_list_snoc, ?string_app_nil_r; try done;
        by rewrite string_app_assoc.
  - split; [apply IH2|]. intros c cur.
    rewrite (splitlines_from_cons cur c (String a s)). cbv zeta iota beta.
    destruct (Ascii.eqb c "010").
    { cbn [bytes_join]. rewrite IH2. simpl. by rewrite string_app_assoc. }
    destruct (Ascii.eqb c "013").
    { destruct (Ascii.eqb a "010"); cbn [bytes_join]; rewrite ?IH1, ?IH2; simpl;
        by rewrite string_app_assoc. }
    rewrite IH2. simpl. by rewrite string_of_list_snoc, string_app_assoc.
Qed.

(** X14: a text log whose lines all come back unchanged from decoding
    and encoding as UTF-8 is sent by [irclogserver.application] byte for
    byte, in pieces that end where its lines end. *)
Theorem utf8_log_is_served_unchanged e path content :
  irclogserver.get_path e = Some path ->
  path <> "search" -> path <> "irclog.css" ->
  Text.endswith path ".log" || Text.endswith path ".txt" = true ->
  read_file (path_join (base_dir e) path) = Read content ->
  (forall line, line ∈ splitlines_from [] content -> encode_utf8 (decode line) = line) ->
  exists r, (irclogserver.application e).1 = Returned r /\
            status r = "200 Ok" /\
            body r = splitlines_from [] content /\
            bytes_join (body r) = content.
Proof.
  intros Hp Hs%String.eqb_neq Hc%String.eqb_neq He Hr Hid.
  unfold irclogserver.application, respond. fold (base_dir e).
  rewrite Hp, Hs, Hc, Hr, He.
  assert (map (fun line => encode_utf8 (decode line)) (splitlines_from [] content)
          = splitlines_from [] content) as Hmap.
  { induction (splitlines_from [] content) as [|l ls IH]; simpl; [done|].
    rewrite Hid by (left). rewrite IH; [done|]. intros line Hl. apply Hid. by right. }
  destruct (Text.endswith path ".css") eqn:Hcss.
  { rewrite (endswith_exclusive path ".css" ".log"),
      (endswith_exclusive path ".css" ".txt") in He; done. }
  eexists. cbn [fst status body]. split; [reflexivity|]. split; [reflexivity|].
  rewrite Hmap. split; [done|]. apply (proj1 (splitlines_join_from content) []).
Qed.

End HandlerMore.

(** ** The further properties, on the small corpus and the small site *)

Lemma misses_of_false {logs : LogStore} query r :
  Text.str_in (Text.lower query) (Text.lower (flatten r.2)) = false -> misses query r.
Proof.
  unfold misses. rewrite <- TextFacts.str_in_lower. intros -> ?. discriminate.
Qed.

Lemma search_ignores_query_case_witness :
  Text.lower (Casing := Sample.lowering) "HeLLo" =
    Text.lower (Casing := Sample.lowering) "hello" /\
  forall n,
    (gen_take (logs := Sample.sorted_logs) n
       (search_irc_logs "HeLLo" (Some 0) None None) Sample.one_stats).1.1 =
    (gen_take (logs := Sample.sorted_logs) n
       (search_irc_logs "hello" (Some 0) None None) Sample.one_stats).1.1 /\
    (gen_take (logs := Sample.sorted_logs) n
       (search_irc_logs "HeLLo" (Some 0) None None) Sample.one_stats).2 =
    (gen_take (logs := Sample.sorted_logs) n
       (search_irc_logs "hello" (Some 0) None None) Sample.one_stats).2.
Proof.
  split; [reflexivity|].
  apply (search_ignores_query_case (logs := Sample.sorted_logs) "HeLLo" "hello").
  reflexivity.
Defined.

Lemma first_result_stops_scanning_witness :
  exists h',
    gen_next (logs := Sample.sorted_logs)
      (search_irc_logs "AGAIN" (Some 0) None None) Sample.one_stats =
      (Some (make_result Sample.day2 ("09:00", Comment "bob" "hello again")),
       Suspended "again" 0 Sample.day2 [] [Sample.day1], h') /\
    h' !! 0 = Some {| SearchStats.files := 2; SearchStats.lines := 3;
                      SearchStats.matches := 1 |}.
Proof.
  apply (first_result_stops_scanning (logs := Sample.sorted_logs) "AGAIN" None None 0
           Sample.one_stats [Sample.day3] Sample.day2 [Sample.day1]
           [] ("09:00", Comment "bob" "hello again") []).
  - reflexivity.
  - repeat constructor; apply misses_of_false; reflexivity.
  - reflexivity.
  - constructor.
  - exists "bob hello ", "". reflexivity.
  - reflexivity.
Defined.

Lemma counters_at_every_suspension_witness :
  Sample.one_stats !! 0 = Some SearchStats.new /\
  forall l', l' <> 0 ->
    (gen_take (logs := Sample.sorted_logs) 2
       (search_irc_logs "hello" (Some 0) None None) Sample.one_stats).2 !! l'
    = Sample.one_stats !! l'.
Proof.
  split; [reflexivity|].
  apply (counters_at_every_suspension (logs := Sample.sorted_logs) 2 "hello" None None
           0 Sample.one_stats SearchStats.new).
  reflexivity.
Defined.

Lemma stats_accumulate_on_reuse_witness :
  let once := (gen_list (logs := Sample.sorted_logs)
                 (search_irc_logs "hello" (Some 0) None None) Sample.one_stats).2 in
  once !! 0 = Some {| SearchStats.files := 3; SearchStats.lines := 6;
                      SearchStats.matches := 3 |} /\
  (gen_list (logs := Sample.sorted_logs)
     (search_irc_logs "bob" (Some 0) None None) once).2 !! 0
  = Some {| SearchStats.files := 6; SearchStats.lines := 12;
            SearchStats.matches := 5 |}.
Proof.
  intros once. split; [reflexivity|].
  apply (stats_accumulate_on_reuse (logs := Sample.sorted_logs) "bob" None None 0 once
           {| SearchStats.files := 3; SearchStats.lines := 6;
              SearchStats.matches := 3 |}).
  reflexivity.
Defined.

Lemma handlers_open_named_files_witness :
  "/srv/logs/missing" = CSS_FILE (Site := SampleSite.site) \/
  exists path name,
    irclogserver.get_path (SampleSite.request "/missing.html") = Some path /\
    joined (logs := Sample.sorted_logs) (site := SampleSite.site)
      (SampleSite.request "/missing.html") name "/srv/logs/missing" /\
    (name = path \/
     (Text.endswith path ".html" = true /\ name = Text.drop_last 5 path)).
Proof.
  apply (proj1 (handlers_open_named_files (logs := Sample.sorted_logs)
                  (renderer := SampleSite.renderer) (site := SampleSite.site)
                  (SampleSite.request "/missing.html")) "/srv/logs/missing").
  apply list_elem_of_In. right. left. reflexivity.
Defined.

(** A name without separator may lead out of the base directory, and is
    opened all the same. *)
Example parent_directory_is_opened :
  irclogserver.application (logs := Sample.sorted_logs) (renderer := SampleSite.renderer)
    (site := SampleSite.site) (SampleSite.request "/..")
  = (Returned {| status := "200 Ok";
                 headers := [("Content-Type", "text/html; charset=UTF-8")];
                 body := ["passwd"] |}, [Opened "/srv/logs/.."]).
Proof. reflexivity. Qed.

(** Exceptions other than [IOError] leave both handlers: from [open], for
    a name with a NUL character, and from [search_page], for a query given
    twice. *)
Example other_exceptions_are_raised :
  let nul := String "/" (String "000" EmptyString) in
  (irclogserver.application (logs := Sample.sorted_logs) (renderer := SampleSite.renderer)
     (site := SampleSite.site) (SampleSite.request nul)).1 = Raised ValueError /\
  (irclogsearch.wsgi (logs := Sample.sorted_logs) (renderer := SampleSite.renderer)
     (site := SampleSite.site) (SampleSite.request nul)).1 = Raised ValueError /\
  (irclogserver.application (logs := Sample.sorted_logs) (renderer := SampleSite.renderer)
     (site := SampleSite.site) (SampleSite.query ManyValues)).1 = Raised AttributeError /\
  (irclogsearch.wsgi (logs := Sample.sorted_logs) (renderer := SampleSite.renderer)
     (site := SampleSite.site) (SampleSite.query ManyValues)).1 = Raised AttributeError.
Proof. repeat split. Qed.

Lemma application_failures_are_plain_text_witness :
  let e := SampleSite.request "/" in
  let r := {| status := "302 Found";
              headers := [("Content-Type", "text/plain"); ("Location", "/search")];
              body := ["Try /search"] |} in
  (irclogserver.application (logs := Sample.sorted_logs)
     (renderer := SampleSite.renderer) (site := SampleSite.site) e).1 = Returned r /\
  ((status r = "200 Ok" /\
    exists content_type, headers r = [("Content-Type", content_type)]) \/
   (status r = "404 Not Found" /\ headers r = [("Content-Type", "text/plain")] /\
    body r = ["Not found"]) \/
   (status r = "302 Found" /\
    headers r = [("Content-Type", "text/plain"); ("Location", "/search")] /\
    body r = ["Try /search"] /\
    irclogserver.get_path e = Some "index.html" /\
    read_file (Site := SampleSite.site)
      (path_join (Site := SampleSite.site)
         (base_dir (logs := Sample.sorted_logs) e) "index.html")
    = Fails IOError)).
Proof.
  intros e r. split; [reflexivity|].
  apply (application_failures_are_plain_text (logs := Sample.sorted_logs)
           (renderer := SampleSite.renderer) (site := SampleSite.site) e r).
  reflexivity.
Defined.

Lemma utf8_log_is_served_unchanged_witness :
  exists r,
    (irclogserver.application (logs := Sample.sorted_logs)
       (renderer := SampleSite.renderer) (site := SampleSite.site)
       (SampleSite.request "/chan.2020-01-01.log")).1 = Returned r /\
    status r = "200 Ok" /\
    body r = splitlines_from []
               ("10:00 <alice> Hello World" ++ nl ++ "10:02 * carol has joined")%string /\
    bytes_join (body r) =
      ("10:00 <alice> Hello World" ++ nl ++ "10:02 * carol has joined")%string.
Proof.
  apply (utf8_log_is_served_unchanged (logs := Sample.sorted_logs)
           (renderer := SampleSite.renderer) (site := SampleSite.site)
           (SampleSite.request "/chan.2020-01-01.log") "chan.2020-01-01.log").
  - reflexivity.
  - discriminate.
  - discriminate.
  - reflexivity.
  - reflexivity.
  - intros line _. reflexivity.
Defined.

Example grouping_on_the_small_corpus :
  map (map (fun x => SearchResult.time x.1))
      (group_by_date
         (rendered (renderer := SampleSite.renderer) NickColourizer
            (gen_list (logs := Sample.sorted_logs)
               (search_irc_logs "a" None None None) ∅).1.1))
  = [["08:00"]; ["09:00"]; ["10:00"; "10:01"; "10:02"]].
Proof. vm_compute. reflexivity. Qed.

